(** * libcontainerd client: Restore, Pause/Resume and pid listing

    A shallow embedding of [libcontainerd/client.go].  The client is a
    mutable object (registry, backlog, per-ID mutex table) that talks to two
    collaborators: the containerd daemon (gRPC [apiClient]) and the engine
    [Backend].  The embedding threads the client through a state monad and
    records every call that leaves the client, every lock operation and every
    log line in a chronological trace, so that "no RPC is issued" and "A
    happens before B" are statements about that trace.

    The collaborators are not part of the file: their replies are given by an
    environment whose answers may depend on the whole history so far. *)

From Stdlib Require Import ZArith Ascii String List.
From stdpp Require Import gmap strings list.

Local Open Scope string_scope.
Local Open Scope Z_scope.
Local Open Scope list_scope.

(** ** Go values *)

(** A Go [error] is carried by its message; [nil] is [None] of
    [option error]. *)
Definition error := string.

(** The pair [(T, error)] returned by fallible Go functions. *)
Inductive result (A : Type) : Type :=
| Ok (a : A)
| Err (e : error).
Arguments Ok {A} a.
Arguments Err {A} e.

(** [chan struct{}]: channels are identified by allocation order. *)
Definition chan := nat.

(** [IOPipe] is declared next to the container type, outside client.go;
    nothing in client.go looks inside it, so a handle is enough. *)
Definition IOPipe := nat.

(** ** Wire types of the daemon API (package [containerd]) *)

Module containerd.

Record Container := {
  Id : string;
  BundlePath : string;
  Status : string;
  Pids : list Z                       (* []uint32 *)
}.

(** The fields [Id], [Type], [Status] and [Pid] of [containerd.Event]; the
    names are prefixed because [Id] and [Status] are taken by [Container]
    and [Type] is reserved. *)
Record Event := {
  EvId : string;
  Type_ : string;
  EvStatus : Z;                       (* uint32 *)
  EvPid : string
}.

Record StateResponse := {
  Containers : list Container
}.

End containerd.

(** ** In-process state *)

(** [StateInfo], the payload of [Backend.StateChanged]; fields left out of a
    Go composite literal hold their zero value. *)
Record StateInfo := {
  State : string;
  Pid : Z;
  ExitCode : Z
}.

Record process := {
  p_id : string;
  p_dir : string;
  p_processID : string
}.

(** Modelled from the spec: the pauseMonitor type (declared outside
    client.go) is a queue of (expected-state, completion-signal) pairs, and
    [append] is a flat append at the end of that queue. *)
Definition pauseMonitor := list (string * chan).

Definition pauseMonitor_append (m : pauseMonitor) (t : string) (waiter : chan)
  : pauseMonitor :=
  m ++ [(t, waiter)].

(** [container] embeds [process]; the back pointer [process.client] is the
    client itself and is not represented. *)
Record container := {
  proc : process;
  processes : gmap string process;
  c_systemPid : Z;                      (* uint32 *)
  c_pauseMonitor : pauseMonitor
}.

Definition with_systemPid (ct : container) (pid : Z) : container :=
  {| proc := proc ct; processes := processes ct;
     c_systemPid := pid; c_pauseMonitor := c_pauseMonitor ct |}.

Definition with_waiter (t : string) (w : chan) (ct : container) : container :=
  {| proc := proc ct; processes := processes ct;
     c_systemPid := c_systemPid ct;
     c_pauseMonitor := pauseMonitor_append (c_pauseMonitor ct) t w |}.

(** [CreateOption.Apply] receives the container by pointer: it may change
    it and may fail. *)
Definition CreateOption := container -> container * option error.

(** ** Trace of observable actions *)

Inductive logmsg :=
| DebugRestore (id status : string)       (* "restore container %s state %s" *)
| ErrorRestoring (id : string) (err : error) (* "error restoring %s: %v" *)
| WarnUnexpectedBacklog (ev : containerd.Event) (* "unexpected backlog event: %#v" *)
| ErrorOption (err : error)               (* logrus.Error(err) in newContainer *)
| WarnUnlockMissing (id : string).        (* "unlock of non-existing mutex: %s" *)

Inductive action :=
| ALock (id : string)
| AUnlock (id : string)
| ARpcState (id : string) (reply : result containerd.StateResponse)
| ARpcUpdateContainer (id pid status : string) (reply : option error)
| AOpenFifos (cid : string) (reply : result IOPipe)
| AAttachStreams (id : string) (io : IOPipe) (reply : option error)
| AStateChanged (id : string) (si : StateInfo) (reply : option error)
| ARegister (key : string)
| ADeregister (key : string)
| APauseAppend (id state : string) (waiter : chan)
| AChanRecv (ch : chan)
| ALog (m : logmsg).

(** ** What client.go takes from the rest of the package *)

(** Constants and helpers that client.go uses and that are declared in other
    files of the package, and the width of Go's [int] on the target. *)
Record Extern := {
  StatePause : string;
  StateResume : string;
  StateExit : string;
  StateRestore : string;
  initProcessID : string;
  systemPid : containerd.Container -> Z;
  intBits : Z
}.

(** Replies of the collaborators, as functions of the history so far. *)
Record Env := {
  api_State : list action -> string -> result containerd.StateResponse;
  api_UpdateContainer : list action -> string -> string -> string -> option error;
  fifos_open : list action -> container -> result IOPipe;
  backend_AttachStreams : list action -> string -> IOPipe -> option error;
  backend_StateChanged : list action -> string -> StateInfo -> option error
}.

(** ** The client *)

Record client := {
  containerMutexes : gmap string bool;      (* true: held *)
  containers : gmap string container;
  pastEvents : gmap string containerd.Event; (* c.remote.pastEvents *)
  nextChan : chan;
  trace : list action
}.

Definition set_mutexes (f : gmap string bool -> gmap string bool) (c : client) :=
  {| containerMutexes := f (containerMutexes c); containers := containers c;
     pastEvents := pastEvents c; nextChan := nextChan c; trace := trace c |}.

Definition set_containers
  (f : gmap string container -> gmap string container) (c : client) :=
  {| containerMutexes := containerMutexes c; containers := f (containers c);
     pastEvents := pastEvents c; nextChan := nextChan c; trace := trace c |}.

Definition set_pastEvents
  (f : gmap string containerd.Event -> gmap string containerd.Event) (c : client) :=
  {| containerMutexes := containerMutexes c; containers := containers c;
     pastEvents := f (pastEvents c); nextChan := nextChan c; trace := trace c |}.

Definition set_nextChan (n : chan) (c : client) :=
  {| containerMutexes := containerMutexes c; containers := containers c;
     pastEvents := pastEvents c; nextChan := n; trace := trace c |}.

Definition emit (a : action) (c : client) :=
  {| containerMutexes := containerMutexes c; containers := containers c;
     pastEvents := pastEvents c; nextChan := nextChan c;
     trace := trace c ++ [a] |}.

(** ** State monad over the client *)

Definition M (A : Type) := client -> A * client.

Definition ret {A} (a : A) : M A := fun c => (a, c).

Definition bind {A B} (m : M A) (k : A -> M B) : M B :=
  fun c => let (a, c') := m c in k a c'.

Declare Scope client_scope.
Delimit Scope client_scope with client.
Notation "x <- m ;; k" := (bind m (fun x => k))
  (at level 100, m at next level, k at level 200, right associativity)
  : client_scope.
Notation "m ;; k" := (bind m (fun _ => k))
  (at level 100, k at level 200, right associativity) : client_scope.
Local Open Scope client_scope.

Definition gets {A} (f : client -> A) : M A := fun c => (f c, c).
Definition modify (f : client -> client) : M unit := fun c => (tt, f c).
Definition act (a : action) : M unit := modify (emit a).
Definition logf (m : logmsg) : M unit := act (ALog m).

(** A call to a collaborator: the environment answers from the history, and
    the call with its answer is appended to the trace. *)
Definition call {R} (reply : list action -> R) (mk : R -> action) : M R :=
  fun c => let r := reply (trace c) in (r, emit (mk r) c).

(** ** path/filepath.Base, for a Unix separator *)

Definition is_sep (a : ascii) : bool := bool_decide (a = "/"%char).

Fixpoint drop_seps (l : list ascii) : list ascii :=
  match l with
  | a :: l' => if is_sep a then drop_seps l' else l
  | [] => []
  end.

Fixpoint take_elem (l : list ascii) : list ascii :=
  match l with
  | a :: l' => if is_sep a then [] else a :: take_elem l'
  | [] => []
  end.

Definition filepath_Base (path : string) : string :=
  match path with
  | EmptyString => "."
  | _ =>
      let stripped := drop_seps (rev (list_ascii_of_string path)) in
      match rev (take_elem stripped) with
      | [] => "/"
      | last => string_of_list_ascii last
      end
  end.

(** ** Conversion [int(p)] of a [uint32] *)

Definition int_of_uint32 (bits : Z) (p : Z) : Z :=
  let m := p mod 2 ^ bits in
  if m <? 2 ^ (bits - 1) then m else m - 2 ^ bits.

Section Client.

Variable X : Extern.
Variable env : Env.

(** *** Lock table *)

(** One goroutine is followed: [lock] creates the mutex of [id] on first
    use and returns holding it; waiting for another holder is not
    represented. *)

Definition lock (id : string) : M unit :=
  modify (set_mutexes (fun mx =>
    match mx !! id with
    | Some _ => mx
    | None => <[id := false]> mx
    end));;
  modify (set_mutexes (<[id := true]>));;
  act (ALock id).

Definition unlock (id : string) : M unit :=
  mx <- gets containerMutexes;;
  match mx !! id with
  | Some _ => modify (set_mutexes (<[id := false]>));; act (AUnlock id)
  | None => logf (WarnUnlockMissing id)
  end.

(** *** Registry *)

Definition getContainer (id : string) : M (result container) :=
  cs <- gets containers;;
  match cs !! id with
  | Some ct => ret (Ok ct)
  | None => ret (Err ("invalid container: " +:+ id))
  end.

Definition appendContainer (cont : container) : M unit :=
  modify (set_containers (<[p_id (proc cont) := cont]>));;
  act (ARegister (p_id (proc cont))).

Definition deleteContainer (id : string) : M unit :=
  modify (set_containers (delete id));;
  act (ADeregister id).

(** *** Collaborators *)

Definition rpc_State (id : string) : M (result containerd.StateResponse) :=
  call (fun h => api_State env h id) (ARpcState id).

Definition rpc_UpdateContainer (id pid status : string) : M (option error) :=
  call (fun h => api_UpdateContainer env h id pid status)
       (ARpcUpdateContainer id pid status).

Definition openFifos (ct : container) : M (result IOPipe) :=
  call (fun h => fifos_open env h ct) (AOpenFifos (p_id (proc ct))).

Definition AttachStreams (id : string) (io : IOPipe) : M (option error) :=
  call (fun h => backend_AttachStreams env h id io) (AAttachStreams id io).

Definition StateChanged (id : string) (si : StateInfo) : M (option error) :=
  call (fun h => backend_StateChanged env h id si) (AStateChanged id si).

(** *** Channels and the pause monitor of a registered container *)

Definition make_chan : M chan :=
  n <- gets nextChan;;
  modify (set_nextChan (S n));;
  ret n.

(** [container.pauseMonitor.append(state, chstate)] on the pointer that
    [getContainer id] returned: the registry holds that same pointer under
    [id], and every container object is stored under one key only. *)
Definition monitor_append (id state : string) (w : chan) : M unit :=
  modify (set_containers (alter (with_waiter state w) id));;
  act (APauseAppend id state w).

(** [<-chstate]: the receive is recorded; it returns when the event
    dispatcher, a goroutine outside client.go, closes the channel.  The
    dispatcher is not represented: the trace up to and including the receive
    is that of the call, but the state after the receive still holds the
    waiter, so it describes the client at the moment the call blocks and
    not what the dispatcher has made of the pause monitor by the time the
    call returns. *)
Definition chan_recv (ch : chan) : M unit := act (AChanRecv ch).

(** *** newContainer *)

Fixpoint apply_options (options : list CreateOption) (ct : container)
  : M container :=
  match options with
  | [] => ret ct
  | option :: rest =>
      let (ct', err) := option ct in
      match err with
      | Some e => logf (ErrorOption e)
      | None => ret tt
      end;;
      apply_options rest ct'
  end.

Definition newContainer (dir : string) (options : list CreateOption)
  : M container :=
  apply_options options
    {| proc := {| p_id := filepath_Base dir; p_dir := dir;
                  p_processID := initProcessID X |};
       processes := ∅;
       c_systemPid := 0;
       c_pauseMonitor := [] |}.

(** *** getContainerdContainer *)

Definition getContainerdContainer (id : string)
  : M (result containerd.Container) :=
  resp <- rpc_State id;;
  match resp with
  | Err e => ret (Err e)
  | Ok r =>
      match find (fun cont => bool_decide (containerd.Id cont = id))
                 (containerd.Containers r) with
      | Some cont => ret (Ok cont)
      | None => ret (Err "invalid state response")
      end
  end.

(** *** restore *)

(** The statements of [restore] after its second [defer]; the value is the
    named result [err] at the [return]. *)
Definition restore_body (cont : containerd.Container)
           (options : list CreateOption) : M (option error) :=
  let id := containerd.Id cont in
  container0 <- newContainer (containerd.BundlePath cont) options;;
  let container := with_systemPid container0 (systemPid X cont) in
  iopipe <- openFifos container;;
  match iopipe with
  | Err e => ret (Some e)
  | Ok iopipe =>
      err <- AttachStreams id iopipe;;
      match err with
      | Some e => ret (Some e)
      | None =>
          appendContainer container;;
          err <- StateChanged id {| State := StateRestore X;
                                    Pid := c_systemPid container;
                                    ExitCode := 0 |};;
          match err with
          | Some e => ret (Some e)
          | None =>
              past <- gets pastEvents;;
              match past !! id with
              | Some event =>
                  if bool_decide (containerd.Type_ event = StatePause X)
                     || bool_decide (containerd.Type_ event = StateResume X)
                  then StateChanged id {| State := containerd.Type_ event;
                                          Pid := c_systemPid container;
                                          ExitCode := 0 |}
                  else logf (WarnUnexpectedBacklog event);; ret None
              | None => ret None
              end
          end
      end
  end.

(** Deferred calls run last-in first-out at the return: first the
    compensating delete (when the named result is an error), then the
    unlock.  The "already active" return comes before the second [defer]
    statement, so only the unlock runs there. *)
Definition restore (cont : containerd.Container)
           (options : list CreateOption) : M (option error) :=
  lock (containerd.Id cont);;
  logf (DebugRestore (containerd.Id cont) (containerd.Status cont));;
  let id := containerd.Id cont in
  r <- getContainer id;;
  match r with
  | Ok _ =>
      unlock (containerd.Id cont);;
      ret (Some ("container " +:+ id +:+ " is aleady active"))
  | Err _ =>
      err <- restore_body cont options;;
      match err with
      | Some _ => deleteContainer (containerd.Id cont)
      | None => ret tt
      end;;
      unlock (containerd.Id cont);;
      ret err
  end.

(** *** Pause / Resume *)

Definition setState (id state : string) : M (option error) :=
  lock id;;
  r <- getContainer id;;
  match r with
  | Err e => unlock id;; ret (Some e)
  | Ok container =>
      if c_systemPid container =? 0 then
        unlock id;;
        ret (Some ("No active process for container " +:+ id))
      else
        let st := if bool_decide (state = StatePause X)
                  then "paused" else "running" in
        chstate <- make_chan;;
        err <- rpc_UpdateContainer id (initProcessID X) st;;
        match err with
        | Some e => unlock id;; ret (Some e)
        | None =>
            monitor_append id state chstate;;
            unlock id;;
            chan_recv chstate;;
            ret None
        end
  end.

Definition Pause (id : string) : M (option error) :=
  setState id (StatePause X).

Definition Resume (id : string) : M (option error) :=
  setState id (StateResume X).

(** *** Restore *)

Definition Restore (id : string) (options : list CreateOption)
  : M (option error) :=
  r <- getContainerdContainer id;;
  match r with
  | Ok cont =>
      err <- restore cont options;;
      match err with
      | Some e => logf (ErrorRestoring id e)
      | None => ret tt
      end;;
      ret None
  | Err _ =>
      lock id;;
      past <- gets pastEvents;;
      exitCode <-
        match past !! id with
        | Some event =>
            modify (set_pastEvents (delete id));;
            ret (containerd.EvStatus event)
        | None => ret 0
        end;;
      err <- StateChanged id {| State := StateExit X; Pid := 0;
                                ExitCode := exitCode |};;
      unlock id;;
      ret err
  end.

(** *** GetPidsForContainer *)

Definition GetPidsForContainer (id : string) : M (result (list Z)) :=
  r <- getContainerdContainer id;;
  match r with
  | Err e => ret (Err e)
  | Ok cont =>
      ret (Ok (map (int_of_uint32 (intBits X)) (containerd.Pids cont)))
  end.

End Client.

(** * Reasoning about client programs *)

Definition value_of {A} (m : M A) (c : client) : A := fst (m c).
Definition state_after {A} (m : M A) (c : client) : client := snd (m c).

(** [wp m Q c]: running [m] from [c] ends with a value and a client that
    satisfy [Q].  Every program of the monad is total, so this is a
    statement about the run that does happen. *)
Definition wp {A} (m : M A) (Q : A -> client -> Prop) (c : client) : Prop :=
  Q (value_of m c) (state_after m c).

(** Appending several actions at once. *)
Definition emits (l : list action) (c : client) :=
  {| containerMutexes := containerMutexes c; containers := containers c;
     pastEvents := pastEvents c; nextChan := nextChan c;
     trace := trace c ++ l |}.

(** What [apply_options] computes, split into the container it ends with and
    the log lines it writes. *)
Fixpoint options_container (options : list CreateOption) (ct : container)
  : container :=
  match options with
  | [] => ct
  | option :: rest => options_container rest (fst (option ct))
  end.

Fixpoint options_logs (options : list CreateOption) (ct : container)
  : list action :=
  match options with
  | [] => []
  | option :: rest =>
      match snd (option ct) with
      | Some e => [ALog (ErrorOption e)]
      | None => []
      end ++ options_logs rest (fst (option ct))
  end.

(** The container that [restore] builds for a daemon report. *)
Definition restored_container (X : Extern) (cont : containerd.Container)
           (options : list CreateOption) : container :=
  with_systemPid
    (options_container options
       {| proc := {| p_id := filepath_Base (containerd.BundlePath cont);
                     p_dir := containerd.BundlePath cont;
                     p_processID := initProcessID X |};
          processes := ∅; c_systemPid := 0; c_pauseMonitor := [] |})
    (systemPid X cont).

(** Classes of actions. *)
Definition is_unlock (id : string) (a : action) : bool :=
  match a with
  | AUnlock id' => bool_decide (id' = id)
  | _ => false
  end.

Definition is_pause_append (id : string) (a : action) : bool :=
  match a with
  | APauseAppend id' _ _ => bool_decide (id' = id)
  | _ => false
  end.

(** A restored container becomes visible through the registry or through a
    notification to the Backend. *)
Definition announces (a : action) : bool :=
  match a with
  | ARegister _ | AStateChanged _ _ _ => true
  | _ => false
  end.

(** Some action satisfying [p] is followed, later in [l], by one
    satisfying [q]. *)
Fixpoint occurs_before (p q : action -> bool) (l : list action) : bool :=
  match l with
  | [] => false
  | a :: l' => (p a && existsb q l') || occurs_before p q l'
  end.

(** Scan of a trace: [attached] records whether a successful
    [AttachStreams] for [id] has been seen; every announcement must come
    after one. *)
Fixpoint attach_first (id : string) (attached : bool) (l : list action)
  : bool :=
  match l with
  | [] => true
  | AAttachStreams id' _ None :: l' =>
      attach_first id (attached || bool_decide (id' = id)) l'
  | a :: l' =>
      (if announces a then attached else true) && attach_first id attached l'
  end.

(** The status string [st] that [setState] sends to the daemon. *)
Definition status_string (X : Extern) (state : string) : string :=
  if bool_decide (state = StatePause X) then "paused" else "running".

(** [l] ends with the actions [suffix]. *)
Definition ends_with (suffix l : list action) : Prop :=
  exists pre, l = pre ++ suffix.

(** The backlog events that the restore path forwards to the Backend. *)
Definition is_pause_or_resume (X : Extern) (ev : containerd.Event) : bool :=
  bool_decide (containerd.Type_ ev = StatePause X)
  || bool_decide (containerd.Type_ ev = StateResume X).

(** What [getContainerdContainer] makes of the daemon's reply. *)
Definition lookup_result (id : string)
           (reply : result containerd.StateResponse)
  : result containerd.Container :=
  match reply with
  | Err e => Err e
  | Ok r =>
      match find (fun cont => bool_decide (containerd.Id cont = id))
                 (containerd.Containers r) with
      | Some cont => Ok cont
      | None => Err "invalid state response"
      end
  end.

(** The exit code that the not-found branch of [Restore] reports. *)
Definition backlog_exit_code (c : client) (id : string) : Z :=
  match pastEvents c !! id with
  | Some event => containerd.EvStatus event
  | None => 0
  end.

(** * Concrete scenarios *)

(** Sample values for what client.go imports: the state names, the init
    process name and a 64-bit [int]; the system pid is taken to be the first
    reported pid. *)
Definition sample_extern : Extern :=
  {| StatePause := "pause";
     StateResume := "resume";
     StateExit := "exit";
     StateRestore := "restore";
     initProcessID := "init";
     systemPid := fun cont => hd 0 (containerd.Pids cont);
     intBits := 64 |}.

Definition daemon_c1 : containerd.Container :=
  {| containerd.Id := "c1";
     containerd.BundlePath := "/var/run/docker/libcontainerd/c1";
     containerd.Status := "running";
     containerd.Pids := [42; 43] |}.

(** The daemon knows ["c1"] and every call succeeds. *)
Definition env_ok : Env :=
  {| api_State := fun _ _ => Ok {| containerd.Containers := [daemon_c1] |};
     api_UpdateContainer := fun _ _ _ _ => None;
     fifos_open := fun _ _ => Ok 7%nat;
     backend_AttachStreams := fun _ _ _ => None;
     backend_StateChanged := fun _ _ _ => None |}.

(** The daemon knows ["c1"], but the Backend rejects notifications. *)
Definition env_backend_down : Env :=
  {| api_State := fun _ _ => Ok {| containerd.Containers := [daemon_c1] |};
     api_UpdateContainer := fun _ _ _ _ => None;
     fifos_open := fun _ _ => Ok 7%nat;
     backend_AttachStreams := fun _ _ _ => None;
     backend_StateChanged := fun _ _ _ => Some "backend down" |}.

(** The daemon answers, but has no record of any container. *)
Definition env_no_record : Env :=
  {| api_State := fun _ _ => Ok {| containerd.Containers := [] |};
     api_UpdateContainer := fun _ _ _ _ => Some "container not found";
     fifos_open := fun _ _ => Ok 7%nat;
     backend_AttachStreams := fun _ _ _ => None;
     backend_StateChanged := fun _ _ _ => None |}.

(** The State RPC itself fails, and so do notifications. *)
Definition env_rpc_down : Env :=
  {| api_State := fun _ _ => Err "rpc error: transport is closing";
     api_UpdateContainer := fun _ _ _ _ => Some "rpc error: transport is closing";
     fifos_open := fun _ _ => Ok 7%nat;
     backend_AttachStreams := fun _ _ _ => None;
     backend_StateChanged := fun _ _ _ => Some "backend down" |}.

Definition pause_event : containerd.Event :=
  {| containerd.EvId := "c1"; containerd.Type_ := "pause";
     containerd.EvStatus := 0; containerd.EvPid := "init" |}.

Definition exit_event : containerd.Event :=
  {| containerd.EvId := "c2"; containerd.Type_ := "exit";
     containerd.EvStatus := 7; containerd.EvPid := "init" |}.

Definition container_c1 (pid : Z) : container :=
  {| proc := {| p_id := "c1";
                p_dir := "/var/run/docker/libcontainerd/c1";
                p_processID := "init" |};
     processes := ∅;
     c_systemPid := pid;
     c_pauseMonitor := [] |}.

Definition client_empty : client :=
  {| containerMutexes := ∅; containers := ∅; pastEvents := ∅;
     nextChan := 0%nat; trace := [] |}.

(** Nothing registered; a pause event for ["c1"] waits in the backlog. *)
Definition client_backlog_pause : client :=
  {| containerMutexes := ∅; containers := ∅;
     pastEvents := {[ "c1" := pause_event ]};
     nextChan := 0%nat; trace := [] |}.

(** Nothing registered; an exit event with status 7 for ["c2"] waits in the
    backlog. *)
Definition client_backlog_exit : client :=
  {| containerMutexes := ∅; containers := ∅;
     pastEvents := {[ "c2" := exit_event ]};
     nextChan := 0%nat; trace := [] |}.

(** ["c1"] is registered with a live init process. *)
Definition client_running : client :=
  {| containerMutexes := ∅; containers := {[ "c1" := container_c1 42 ]};
     pastEvents := ∅; nextChan := 0%nat; trace := [] |}.

(** ["c1"] is registered, with no active process. *)
Definition client_no_process : client :=
  {| containerMutexes := ∅; containers := {[ "c1" := container_c1 0 ]};
     pastEvents := ∅; nextChan := 0%nat; trace := [] |}.
(** * Signal, Resize and Stats *)

(** These three operations call daemon RPCs of their own.  Their runs are
    recorded as steps: the actions of the client as above, interleaved with
    the process-level RPCs. *)

(** Conversion [uint32(n)] of an [int]. *)
Definition uint32 (n : Z) : Z := n mod 2 ^ 32.

(** The type [Stats] is declared outside client.go as the daemon's stats
    reply under another name; client.go only converts the pointer, so a
    handle is enough. *)
Definition StatsT := nat.

Inductive rpc :=
| RSignal (id pid : string) (signal : Z) (reply : option error)
| RUpdateProcess (id pid : string) (width height : Z) (reply : option error)
| RStats (id : string) (reply : result StatsT).

Inductive step :=
| Act (a : action)
| Rpc (r : rpc).

(** Replies of the daemon to the process-level RPCs, as functions of the
    steps so far. *)
Record ProcessApi := {
  api_Signal : list step -> string -> string -> Z -> option error;
  api_UpdateProcess : list step -> string -> string -> Z -> Z -> option error;
  api_Stats : list step -> string -> result StatsT
}.

Record world := {
  cl : client;
  steps : list step
}.

Definition W (A : Type) := world -> A * world.

Definition retW {A} (a : A) : W A := fun w => (a, w).

Definition bindW {A B} (m : W A) (k : A -> W B) : W B :=
  fun w => let (a, w') := m w in k a w'.

Declare Scope world_scope.
Delimit Scope world_scope with world.
Notation "x <- m ;; k" := (bindW m (fun x => k))
  (at level 100, m at next level, k at level 200, right associativity)
  : world_scope.
Notation "m ;; k" := (bindW m (fun _ => k))
  (at level 100, k at level 200, right associativity) : world_scope.

(** The actions that a run from [c] to [c'] appended to the trace. *)
Definition new_actions (c c' : client) : list action :=
  drop (length (trace c)) (trace c').

(** A program of the client run inside a world: its actions become steps. *)
Definition lift {A} (m : M A) : W A :=
  fun w =>
    let (a, c') := m (cl w) in
    (a, {| cl := c';
           steps := steps w ++ map Act (new_actions (cl w) c') |}).

Definition callW {R} (reply : list step -> R) (mk : R -> rpc) : W R :=
  fun w =>
    let r := reply (steps w) in
    (r, {| cl := cl w; steps := steps w ++ [Rpc (mk r)] |}).

Section Process.

Variable X : Extern.
Variable papi : ProcessApi.

Definition Signal (id : string) (sig : Z) : W (option error) :=
  (lift (lock id);;
   r <- lift (getContainer id);;
   match r with
   | Err e => lift (unlock id);; retW (Some e)
   | Ok _ =>
       err <- callW (fun h => api_Signal papi h id (initProcessID X)
                                         (uint32 sig))
                    (RSignal id (initProcessID X) (uint32 sig));;
       lift (unlock id);;
       retW err
   end)%world.

Definition Resize (id processID : string) (width height : Z)
  : W (option error) :=
  (lift (lock id);;
   r <- lift (getContainer id);;
   match r with
   | Err e => lift (unlock id);; retW (Some e)
   | Ok _ =>
       err <- callW (fun h => api_UpdateProcess papi h id processID
                                (uint32 width) (uint32 height))
                    (RUpdateProcess id processID
                                    (uint32 width) (uint32 height));;
       lift (unlock id);;
       retW err
   end)%world.

Definition Stats (id : string) : W (result StatsT) :=
  (resp <- callW (fun h => api_Stats papi h id) (RStats id);;
   match resp with
   | Err e => retW (Err e)
   | Ok r => retW (Ok r)
   end)%world.

End Process.

(** The daemon accepts every process-level RPC. *)
Definition papi_ok : ProcessApi :=
  {| api_Signal := fun _ _ _ _ => None;
     api_UpdateProcess := fun _ _ _ _ _ => None;
     api_Stats := fun _ _ => Ok 5%nat |}.

(** The daemon rejects every process-level RPC. *)
Definition papi_down : ProcessApi :=
  {| api_Signal := fun _ _ _ _ => Some "rpc error: no such process";
     api_UpdateProcess := fun _ _ _ _ _ => Some "rpc error: no such process";
     api_Stats := fun _ _ => Err "rpc error: no such process" |}.

Definition world_of (c : client) : world := {| cl := c; steps := [] |}.

(** The container literal of [newContainer], before any option runs. *)
Definition fresh_container (X : Extern) (dir : string) : container :=
  {| proc := {| p_id := filepath_Base dir; p_dir := dir;
                p_processID := initProcessID X |};
     processes := ∅;
     c_systemPid := 0;
     c_pauseMonitor := [] |}.

(** A collaborator call that failed with the error [e]. *)
Definition failed_with (e : error) (a : action) : bool :=
  match a with
  | AOpenFifos _ (Err e') => bool_decide (e' = e)
  | AAttachStreams _ _ (Some e') => bool_decide (e' = e)
  | AStateChanged _ _ (Some e') => bool_decide (e' = e)
  | _ => false
  end.

(** A log line written for a failing option. *)
Definition is_option_log (a : action) : bool :=
  match a with
  | ALog (ErrorOption _) => true
  | _ => false
  end.

(** An option that leaves the container alone and reports an error. *)
Definition failing_option : CreateOption :=
  fun ct => (ct, Some "option not supported").

(** A container that the daemon knows but that has no process left. *)
Definition daemon_idle : containerd.Container :=
  {| containerd.Id := "c3";
     containerd.BundlePath := "/var/run/docker/libcontainerd/c3";
     containerd.Status := "stopped";
     containerd.Pids := [] |}.

(** The daemon reports ["c1"] with a bundle directory whose base name is
    not the ID. *)
Definition daemon_moved : containerd.Container :=
  {| containerd.Id := "c1";
     containerd.BundlePath := "/bundles/other";
     containerd.Status := "running";
     containerd.Pids := [42] |}.

(** The daemon lists that report, and the Backend rejects notifications. *)
Definition env_moved_backend_down : Env :=
  {| api_State := fun _ _ => Ok {| containerd.Containers := [daemon_moved] |};
     api_UpdateContainer := fun _ _ _ _ => None;
     fifos_open := fun _ _ => Ok 7%nat;
     backend_AttachStreams := fun _ _ _ => None;
     backend_StateChanged := fun _ _ _ => Some "backend down" |}.

(** * Rules of the program logic *)

Lemma wp_ret {A} (a : A) Q c : Q a c -> wp (ret a) Q c.
Proof. exact (fun H => H). Qed.

Lemma wp_bind {A B} (m : M A) (k : A -> M B) Q c :
  wp m (fun a c' => wp (k a) Q c') c -> wp (bind m k) Q c.
Proof.
  unfold wp, value_of, state_after, bind.
  destruct (m c) as [a c']. exact (fun H => H).
Qed.

Lemma wp_gets {A} (f : client -> A) Q c : Q (f c) c -> wp (gets f) Q c.
Proof. exact (fun H => H). Qed.

Lemma wp_modify (f : client -> client) Q c : Q tt (f c) -> wp (modify f) Q c.
Proof. exact (fun H => H). Qed.

Lemma wp_act (a : action) Q c : Q tt (emit a c) -> wp (act a) Q c.
Proof. exact (fun H => H). Qed.

Lemma wp_call {R} (reply : list action -> R) (mk : R -> action) Q c :
  Q (reply (trace c)) (emit (mk (reply (trace c))) c) -> wp (call reply mk) Q c.
Proof. exact (fun H => H). Qed.

Lemma wp_run {A} (m : M A) (Q : A -> client -> Prop) c :
  wp m Q c -> Q (value_of m c) (state_after m c).
Proof. exact (fun H => H). Qed.

Lemma wp_mono {A} (m : M A) (Q Q' : A -> client -> Prop) c :
  (forall a c', Q a c' -> Q' a c') -> wp m Q c -> wp m Q' c.
Proof. unfold wp. auto. Qed.

(** Client states are compared field by field. *)
Lemma client_eq c1 c2 :
  containerMutexes c1 = containerMutexes c2 ->
  containers c1 = containers c2 ->
  pastEvents c1 = pastEvents c2 ->
  nextChan c1 = nextChan c2 ->
  trace c1 = trace c2 ->
  c1 = c2.
Proof. destruct c1, c2; cbn; intros; subst; reflexivity. Qed.

Lemma emits_nil c : emits [] c = c.
Proof. apply client_eq; cbn; auto using app_nil_r. Qed.

Lemma emits_emits l1 l2 c : emits l2 (emits l1 c) = emits (l1 ++ l2) c.
Proof. apply client_eq; cbn; auto using app_assoc. Qed.

Ltac proj_simpl :=
  cbn [containerMutexes containers pastEvents nextChan trace
       set_mutexes set_containers set_pastEvents set_nextChan emit emits].

Ltac wp_step :=
  lazymatch goal with
  | |- wp (bind _ _) _ _ => apply wp_bind
  | |- wp (ret _) _ _ => apply wp_ret
  | |- wp (gets _) _ _ => apply wp_gets
  | |- wp (modify _) _ _ => apply wp_modify
  | |- wp (act _) _ _ => apply wp_act
  | |- wp (logf _) _ _ => apply wp_act
  | |- wp (call _ _) _ _ => apply wp_call
  end; cbv beta; proj_simpl.

Ltac wp_steps := repeat wp_step.

Section Rules.

Variable X : Extern.
Variable env : Env.

Lemma wp_lock id Q c :
  Q tt (emit (ALock id) (set_mutexes (<[id := true]>) c)) ->
  wp (lock id) Q c.
Proof.
  intros H. unfold lock. wp_steps.
  match goal with |- Q tt ?s => replace s with (emit (ALock id) (set_mutexes (<[id := true]>) c)) end; [exact H|].
  apply client_eq; proj_simpl; try reflexivity.
  destruct (containerMutexes c !! id); [reflexivity|].
  symmetry. apply insert_insert_eq.
Qed.

Lemma wp_unlock id Q c :
  is_Some (containerMutexes c !! id) ->
  Q tt (emit (AUnlock id) (set_mutexes (<[id := false]>) c)) ->
  wp (unlock id) Q c.
Proof.
  intros [b Hb] H. unfold unlock. wp_steps. rewrite Hb. wp_steps. exact H.
Qed.

Lemma wp_apply_options options ct Q c :
  Q (options_container options ct) (emits (options_logs options ct) c) ->
  wp (apply_options options ct) Q c.
Proof.
  revert ct c. induction options as [|o rest IH]; intros ct c H; cbn [apply_options].
  - wp_steps. cbn in H. rewrite emits_nil in H. exact H.
  - cbn [options_container options_logs] in H.
    destruct (o ct) as [ct' [e|]]; cbn [fst snd] in H; wp_steps; apply IH.
    + eapply eq_ind; [exact H|].
      apply client_eq; cbn; rewrite <- ?app_assoc; reflexivity.
    + exact H.
Qed.

End Rules.

Ltac wp_prim :=
  lazymatch goal with
  | |- wp (lock _) _ _ => apply wp_lock
  | |- wp (unlock _) _ _ =>
      apply wp_unlock;
      [proj_simpl; rewrite lookup_insert_eq; eexists; reflexivity|]
  | |- wp (apply_options _ _) _ _ => apply wp_apply_options
  | |- wp (getContainer _) _ _ => unfold getContainer
  | |- wp (appendContainer _) _ _ => unfold appendContainer
  | |- wp (deleteContainer _) _ _ => unfold deleteContainer
  | |- wp (rpc_State _ _) _ _ => unfold rpc_State
  | |- wp (rpc_UpdateContainer _ _ _ _) _ _ => unfold rpc_UpdateContainer
  | |- wp (openFifos _ _) _ _ => unfold openFifos
  | |- wp (AttachStreams _ _ _) _ _ => unfold AttachStreams
  | |- wp (StateChanged _ _ _) _ _ => unfold StateChanged
  | |- wp (make_chan) _ _ => unfold make_chan
  | |- wp (monitor_append _ _ _) _ _ => unfold monitor_append
  | |- wp (chan_recv _) _ _ => unfold chan_recv
  | |- wp (newContainer _ _ _) _ _ => unfold newContainer
  end; cbv beta zeta; proj_simpl.

(** At a branch point a known value of the scrutinee is used; otherwise
    both outcomes are considered. *)
Ltac wp_case :=
  lazymatch goal with
  | |- wp (match ?x with _ => _ end) _ _ =>
      first [ match goal with H : x = _ |- _ => rewrite H end
            | destruct x eqn:? ]
  end.

(** Straight-line code is executed; a branch point is left to the proof. *)
Ltac wp_exec := repeat first [wp_step | wp_prim].

(** All branches are explored. *)
Ltac wp_all := repeat first [wp_step | wp_prim | wp_case].

Ltac trace_eq := rewrite <- ?app_assoc; reflexivity.

(** The actions of a run: the goal [exists l, trace c' = trace c ++ l /\ _]
    is reduced to its second part, with [l] written out. *)
Ltac trace_split :=
  rewrite <- ?app_assoc; eexists; split; [reflexivity|]; cbn [app].

Lemma ends_with_refl s : ends_with s s.
Proof. exists []. reflexivity. Qed.

Lemma ends_with_cons s a l : ends_with s l -> ends_with s (a :: l).
Proof. intros [pre ->]. exists (a :: pre). reflexivity. Qed.

Lemma ends_with_app s l0 l : ends_with s l -> ends_with s (l0 ++ l).
Proof. intros [pre ->]. exists (l0 ++ pre). apply app_assoc. Qed.

Ltac ends_with_solve :=
  repeat first [exact (ends_with_refl _) | apply ends_with_cons | apply ends_with_app].

(** * Properties of the client *)

Section Properties.

Variable X : Extern.
Variable env : Env.

(** ** Pause and Resume *)

Lemma setState_no_active_process id state c ct :
  containers c !! id = Some ct ->
  c_systemPid ct = 0 ->
  value_of (setState X env id state) c
    = Some ("No active process for container " +:+ id)
  /\ trace (state_after (setState X env id state) c)
     = trace c ++ [ALock id; AUnlock id]
  /\ containers (state_after (setState X env id state) c) = containers c.
Proof.
  intros Hreg Hpid.
  apply (wp_run (setState X env id state)
           (fun r c' => r = _ /\ trace c' = _ /\ containers c' = _)).
  unfold setState. wp_exec. rewrite Hreg. wp_exec.
  rewrite Hpid. cbn [Z.eqb]. wp_exec.
  repeat split. trace_eq.
Qed.

(** C3: for a registered container whose systemPid is 0, Pause and Resume
    both fail with the "No active process" error; the only actions of the
    call are taking and releasing the per-ID lock (so no RPC reaches the
    daemon), and the registry, hence the container's pause monitor, is
    left as it was (no waiter is registered). *)
Theorem Pause_Resume_no_active_process id c ct :
  containers c !! id = Some ct ->
  c_systemPid ct = 0 ->
  (value_of (Pause X env id) c
     = Some ("No active process for container " +:+ id)
   /\ trace (state_after (Pause X env id) c)
      = trace c ++ [ALock id; AUnlock id]
   /\ containers (state_after (Pause X env id) c) = containers c)
  /\
  (value_of (Resume X env id) c
     = Some ("No active process for container " +:+ id)
   /\ trace (state_after (Resume X env id) c)
      = trace c ++ [ALock id; AUnlock id]
   /\ containers (state_after (Resume X env id) c) = containers c).
Proof.
  intros Hreg Hpid. unfold Pause, Resume.
  split.
  - destruct (setState_no_active_process id (StatePause X) c ct Hreg Hpid)
      as (-> & -> & ->); auto.
  - destruct (setState_no_active_process id (StateResume X) c ct Hreg Hpid)
      as (-> & -> & ->); auto.
Qed.

(** C4 (as amended): for a registered container with an active process,
    when the UpdateContainer RPC fails setState releases the per-ID lock
    and returns the RPC error, and no waiter has been appended (the
    registry is unchanged and the call does not block); when the RPC
    succeeds the waiter is appended to the container's pause monitor
    while the per-ID lock is still held, the lock is released next, and
    only then does the caller block on the waiter's channel. *)
Theorem setState_waiter_follows_accepted_rpc id state c ct :
  containers c !! id = Some ct ->
  c_systemPid ct <> 0 ->
  let st := status_string X state in
  match api_UpdateContainer env (trace c ++ [ALock id]) id (initProcessID X) st with
  | Some e =>
      value_of (setState X env id state) c = Some e
      /\ trace (state_after (setState X env id state) c)
         = trace c ++ [ALock id;
                       ARpcUpdateContainer id (initProcessID X) st (Some e);
                       AUnlock id]
      /\ containers (state_after (setState X env id state) c) = containers c
  | None =>
      value_of (setState X env id state) c = None
      /\ trace (state_after (setState X env id state) c)
         = trace c ++ [ALock id;
                       ARpcUpdateContainer id (initProcessID X) st None;
                       APauseAppend id state (nextChan c);
                       AUnlock id;
                       AChanRecv (nextChan c)]
      /\ containers (state_after (setState X env id state) c)
         = <[id := with_waiter state (nextChan c) ct]> (containers c)
  end.
Proof.
  intros Hreg Hpid st. subst st. unfold status_string.
  apply Z.eqb_neq in Hpid.
  set (reply := api_UpdateContainer _ _ _ _ _).
  assert (wp (setState X env id state)
            (fun r c' =>
               r = reply /\
               trace c' = trace c ++
                 [ALock id; ARpcUpdateContainer id (initProcessID X) (status_string X state) reply] ++
                 match reply with
                 | Some _ => [AUnlock id]
                 | None => [APauseAppend id state (nextChan c); AUnlock id; AChanRecv (nextChan c)]
                 end /\
               containers c' = match reply with
                               | Some _ => containers c
                               | None => alter (with_waiter state (nextChan c)) id (containers c)
                               end) c) as H.
  { unfold setState, status_string in *. wp_exec. rewrite Hreg. wp_exec.
    rewrite Hpid. wp_exec. fold reply.
    destruct reply; wp_exec; repeat split; trace_eq. }
  apply wp_run in H. destruct H as (Hv & Ht & Hc).
  unfold status_string in *. fold reply in Ht |- *.
  destruct reply; rewrite Hv, Ht, Hc; repeat split.
  apply map_eq. intros k. destruct (decide (k = id)) as [->|Hne].
  - rewrite lookup_alter_eq, Hreg, lookup_insert_eq. reflexivity.
  - rewrite lookup_alter_ne, lookup_insert_ne by congruence. reflexivity.
Qed.

(** ** restore *)

Lemma restore_already_active cont options c ct :
  containers c !! containerd.Id cont = Some ct ->
  value_of (restore X env cont options) c
    = Some ("container " +:+ containerd.Id cont +:+ " is aleady active")
  /\ containers (state_after (restore X env cont options) c) = containers c
  /\ trace (state_after (restore X env cont options) c)
     = trace c ++ [ALock (containerd.Id cont);
                   ALog (DebugRestore (containerd.Id cont)
                                      (containerd.Status cont));
                   AUnlock (containerd.Id cont)].
Proof.
  intros Hreg.
  apply (wp_run (restore X env cont options)
           (fun r c' => r = _ /\ containers c' = _ /\ trace c' = _)).
  unfold restore. wp_exec. rewrite Hreg. wp_exec.
  repeat split. trace_eq.
Qed.

(** C5: restore of an ID that is already in the registry fails with the
    "is aleady active" error before anything is built: the only actions
    are lock, debug log and unlock, and the registry is left as it was, so
    the entry of that ID is neither replaced nor deleted. *)
Theorem restore_rejects_registered_id cont options c ct :
  containers c !! containerd.Id cont = Some ct ->
  value_of (restore X env cont options) c
    = Some ("container " +:+ containerd.Id cont +:+ " is aleady active")
  /\ containers (state_after (restore X env cont options) c) = containers c
  /\ containers (state_after (restore X env cont options) c)
       !! containerd.Id cont = Some ct.
Proof.
  intros Hreg.
  destruct (restore_already_active cont options c ct Hreg) as (Hv & Hc & _).
  rewrite Hv, Hc. auto.
Qed.

Lemma restore_keeps_backlog cont options c :
  pastEvents (state_after (restore X env cont options) c) = pastEvents c.
Proof.
  apply (wp_run (restore X env cont options)
           (fun _ c' => pastEvents c' = pastEvents c)).
  unfold restore, restore_body. wp_all; reflexivity.
Qed.

Lemma restore_failure_cleanup cont options c :
  containers c !! containerd.Id cont = None ->
  wp (restore X env cont options)
     (fun r c' =>
        forall e, r = Some e ->
          containers c' !! containerd.Id cont = None
          /\ (exists l, trace c' = trace c ++ l
                /\ ends_with [ADeregister (containerd.Id cont);
                              AUnlock (containerd.Id cont)] l)
          /\ (p_id (proc (restored_container X cont options))
                = containerd.Id cont ->
              containers c' = containers c)) c.
Proof.
  intros Hfree.
  unfold restore, restore_body. wp_exec. rewrite Hfree.
  wp_all; intros e' He'; try discriminate.
  all: (split; [apply lookup_delete_eq|]).
  all: (split; [trace_split; ends_with_solve|]).
  all: intros Hkey; try (apply delete_id; exact Hfree).
  all: unfold restored_container in Hkey; cbn [with_systemPid proc] in Hkey |- *.
  all: rewrite Hkey, delete_insert_eq; apply delete_id; exact Hfree.
Qed.

(** What the compensating delete achieves in general: a restore of an
    unregistered ID that fails leaves no registry entry under that ID, the
    delete runs before the per-ID lock is released and the error returned,
    and when the container was built under the key of that ID the registry
    is exactly what it was before the call.  Nothing is said here about a
    container stored under another key. *)
Theorem restore_failure_leaves_no_registration cont options c e :
  containers c !! containerd.Id cont = None ->
  value_of (restore X env cont options) c = Some e ->
  containers (state_after (restore X env cont options) c)
    !! containerd.Id cont = None
  /\ (exists l,
        trace (state_after (restore X env cont options) c) = trace c ++ l
        /\ ends_with [ADeregister (containerd.Id cont);
                      AUnlock (containerd.Id cont)] l)
  /\ (p_id (proc (restored_container X cont options)) = containerd.Id cont ->
      containers (state_after (restore X env cont options) c)
        = containers c).
Proof.
  intros Hfree Herr.
  exact (wp_run _ _ _ (restore_failure_cleanup cont options c Hfree) e Herr).
Qed.

Lemma attach_first_options_logs id b options ct l :
  attach_first id b (options_logs options ct ++ l) = attach_first id b l.
Proof.
  revert ct. induction options as [|o rest IH]; intros ct.
  - reflexivity.
  - cbn [options_logs]. rewrite <- app_assoc.
    destruct (snd (o ct)); cbn; apply IH.
Qed.

Lemma attach_first_sound id pre a post :
  forall b,
    attach_first id b (pre ++ a :: post) = true ->
    announces a = true ->
    b = true \/ exists io, In (AAttachStreams id io None) pre.
Proof.
  induction pre as [|x pre IH]; intros b Hscan Ha.
  - left. destruct a; try discriminate Ha; cbn in Hscan;
      apply andb_true_iff in Hscan; tauto.
  - assert (Hother :
      (if announces x then b else true)
        && attach_first id b (pre ++ a :: post) = true ->
      b = true \/ exists io, In (AAttachStreams id io None) (x :: pre)).
    { intros H. apply andb_true_iff in H. destruct H as [_ H].
      destruct (IH b H Ha) as [Hb|[io Hio]]; [left; exact Hb|].
      right. exists io. right. exact Hio. }
    destruct x; try exact (Hother Hscan).
    destruct reply; [exact (Hother Hscan)|].
    cbn [app attach_first] in Hscan.
    destruct (IH _ Hscan Ha) as [Hb|[io' Hio]].
    + apply orb_true_iff in Hb. destruct Hb as [Hb|Hb]; [left; exact Hb|].
      apply bool_decide_eq_true_1 in Hb. subst.
      right. eexists. left. reflexivity.
    + right. exists io'. right. exact Hio.
Qed.

Lemma restore_attach_first cont options c :
  wp (restore X env cont options)
     (fun _ c' =>
        exists l, trace c' = trace c ++ l
                  /\ attach_first (containerd.Id cont) false l = true) c.
Proof.
  unfold restore, restore_body. wp_all; trace_split.
  all: repeat first
         [ progress cbn [attach_first announces andb orb]
         | rewrite attach_first_options_logs
         | rewrite (bool_decide_eq_true_2 _ eq_refl) ].
  all: reflexivity.
Qed.

(** C8: in every run of restore, whatever the collaborators answer, an
    action that makes the restored container visible (its insertion into
    the registry, or any StateChanged notification, the Restored one
    included) is preceded in the trace of the call by an AttachStreams for
    that ID that returned no error. *)
Theorem restore_attaches_before_announcing cont options c pre a post :
  trace (state_after (restore X env cont options) c)
    = trace c ++ pre ++ a :: post ->
  announces a = true ->
  exists io, In (AAttachStreams (containerd.Id cont) io None) pre.
Proof.
  intros Htrace Ha.
  destruct (wp_run _ _ _ (restore_attach_first cont options c))
    as (l & Hl & Hscan).
  rewrite Hl in Htrace. apply app_inv_head in Htrace. subst l.
  destruct (attach_first_sound _ _ _ _ _ Hscan Ha) as [Hb|Hio];
    [discriminate Hb | exact Hio].
Qed.

Lemma restore_drains_backlog cont options c ev :
  pastEvents c !! containerd.Id cont = Some ev ->
  value_of (restore X env cont options) c = None ->
  pastEvents (state_after (restore X env cont options) c)
    !! containerd.Id cont = Some ev
  /\ exists l,
      trace (state_after (restore X env cont options) c) = trace c ++ l
      /\ ends_with
           [ if is_pause_or_resume X ev
             then AStateChanged (containerd.Id cont)
                    {| State := containerd.Type_ ev;
                       Pid := systemPid X cont;
                       ExitCode := 0 |} None
             else ALog (WarnUnexpectedBacklog ev);
             AUnlock (containerd.Id cont) ] l.
Proof.
  intros Hev.
  apply (wp_run (restore X env cont options)
           (fun r c' => r = None -> pastEvents c' !! _ = _ /\ exists l, trace c' = _ /\ _)).
  unfold restore, restore_body, is_pause_or_resume.
  wp_all; intros Hr; try discriminate Hr.
  all: (split; [exact Hev|]); trace_split.
  all: cbn [c_systemPid with_systemPid].
  all: ends_with_solve.
Qed.

(** ** Lookup in the daemon *)

Lemma wp_getContainerdContainer id Q c :
  Q (lookup_result id (api_State env (trace c) id))
    (emit (ARpcState id (api_State env (trace c) id)) c) ->
  wp (getContainerdContainer env id) Q c.
Proof.
  unfold getContainerdContainer, lookup_result.
  destruct (api_State env (trace c) id) as [r|e] eqn:Hreply;
    [destruct (find _ _) eqn:Hfind|];
    intros H; wp_exec; rewrite Hreply; wp_exec; rewrite ?Hfind; wp_exec;
    exact H.
Qed.

Lemma getContainerdContainer_value id c :
  value_of (getContainerdContainer env id) c
    = lookup_result id (api_State env (trace c) id).
Proof.
  apply (wp_run _ (fun r _ => r = _)).
  apply wp_getContainerdContainer. reflexivity.
Qed.

Lemma lookup_result_Ok_id id reply cont :
  lookup_result id reply = Ok cont -> containerd.Id cont = id.
Proof.
  unfold lookup_result. destruct reply as [r|e]; [|discriminate].
  destruct (find _ _) as [cont'|] eqn:Hfind; [|discriminate].
  intros [= <-]. apply find_some in Hfind. destruct Hfind as [_ H].
  apply bool_decide_eq_true_1 in H. exact H.
Qed.

Lemma lookup_result_no_match id r :
  (forall cont, In cont (containerd.Containers r) -> containerd.Id cont <> id) ->
  lookup_result id (Ok r) = Err "invalid state response".
Proof.
  intros Hno. unfold lookup_result.
  destruct (find _ _) as [cont|] eqn:Hfind; [|reflexivity].
  apply find_some in Hfind. destruct Hfind as [Hin H].
  apply bool_decide_eq_true_1 in H. destruct (Hno cont Hin H).
Qed.

(** ** Restore *)

Lemma Restore_not_found id options c e0 :
  lookup_result id (api_State env (trace c) id) = Err e0 ->
  wp (Restore X env id options)
     (fun r c' =>
        trace c' = trace c ++
          [ARpcState id (api_State env (trace c) id);
           ALock id;
           AStateChanged id {| State := StateExit X; Pid := 0;
                               ExitCode := backlog_exit_code c id |} r;
           AUnlock id]
        /\ pastEvents c' = delete id (pastEvents c)
        /\ containers c' = containers c) c.
Proof.
  intros Hlookup. unfold Restore, backlog_exit_code.
  wp_step. apply wp_getContainerdContainer. rewrite Hlookup.
  wp_exec. destruct (pastEvents c !! id) eqn:Hpast; wp_exec.
  - repeat split. trace_eq.
  - repeat split; [trace_eq|]. symmetry. apply delete_id. exact Hpast.
Qed.

Lemma Restore_found id options c cont :
  lookup_result id (api_State env (trace c) id) = Ok cont ->
  let c1 := emit (ARpcState id (api_State env (trace c) id)) c in
  value_of (Restore X env id options) c = None
  /\ state_after (Restore X env id options) c
     = match value_of (restore X env cont options) c1 with
       | Some e => emit (ALog (ErrorRestoring id e))
                        (state_after (restore X env cont options) c1)
       | None => state_after (restore X env cont options) c1
       end.
Proof.
  intros Hlookup c1.
  apply (wp_run (Restore X env id options) (fun r c' => r = None /\ c' = _)).
  unfold Restore. wp_step. apply wp_getContainerdContainer. rewrite Hlookup.
  wp_step. unfold wp at 1. fold c1.
  destruct (value_of (restore X env cont options) c1); wp_exec; auto.
Qed.

(** C2 (as amended): Restore returns nil whenever the daemon lookup
    succeeds, and an error of the inner restore is then written to the log;
    when the lookup fails, Restore returns to its caller exactly what the
    Backend answered to the Exit notification, error included. *)
Theorem Restore_return_value id options c :
  match value_of (getContainerdContainer env id) c with
  | Ok cont =>
      value_of (Restore X env id options) c = None
      /\ forall e,
           value_of (restore X env cont options)
                    (state_after (getContainerdContainer env id) c) = Some e ->
           ends_with [ALog (ErrorRestoring id e)]
                     (trace (state_after (Restore X env id options) c))
  | Err _ =>
      ends_with
        [AStateChanged id {| State := StateExit X; Pid := 0;
                             ExitCode := backlog_exit_code c id |}
                       (value_of (Restore X env id options) c);
         AUnlock id]
        (trace (state_after (Restore X env id options) c))
  end.
Proof.
  assert (Hstate : state_after (getContainerdContainer env id) c
                   = emit (ARpcState id (api_State env (trace c) id)) c).
  { apply (wp_run _ (fun _ c' => c' = _)).
    apply wp_getContainerdContainer. reflexivity. }
  rewrite Hstate, getContainerdContainer_value.
  destruct (lookup_result id (api_State env (trace c) id)) as [cont|e0]
    eqn:Hlookup.
  - destruct (Restore_found id options c cont Hlookup) as [Hv Hs].
    split; [exact Hv|]. intros e He. rewrite Hs, He. proj_simpl.
    ends_with_solve.
  - destruct (wp_run _ _ _ (Restore_not_found id options c e0 Hlookup))
      as (Ht & _). rewrite Ht. ends_with_solve.
Qed.

(** C7: when the daemon lookup for an ID fails, Restore removes the
    backlog entry of that ID, takes the exit code from the removed event
    (0 when there was none) and sends the Backend one Exit notification
    carrying that code, under the per-ID lock. *)
Theorem Restore_not_found_reports_exit id options c e0 :
  value_of (getContainerdContainer env id) c = Err e0 ->
  pastEvents (state_after (Restore X env id options) c)
    = delete id (pastEvents c)
  /\ pastEvents (state_after (Restore X env id options) c) !! id = None
  /\ trace (state_after (Restore X env id options) c)
     = trace c ++
       [ARpcState id (api_State env (trace c) id);
        ALock id;
        AStateChanged id
          {| State := StateExit X; Pid := 0;
             ExitCode := match pastEvents c !! id with
                         | Some event => containerd.EvStatus event
                         | None => 0
                         end |}
          (value_of (Restore X env id options) c);
        AUnlock id].
Proof.
  rewrite getContainerdContainer_value. intros Hlookup.
  destruct (wp_run _ _ _ (Restore_not_found id options c e0 Hlookup))
    as (Ht & Hp & _).
  rewrite Hp. split; [reflexivity|]. split; [apply lookup_delete_eq|].
  exact Ht.
Qed.

(** C9: every failure of the State RPC, be it an error of the call itself
    or a reply that lists no container with the requested ID, sends Restore
    down the not-found branch: the lookup yields an error, no restore is
    attempted (the registry is untouched) and an Exit notification is
    emitted. *)
Theorem Restore_lookup_failure_takes_exit_path id options c :
  ((exists e, api_State env (trace c) id = Err e)
   \/ (exists r, api_State env (trace c) id = Ok r
                /\ forall cont, In cont (containerd.Containers r) ->
                                containerd.Id cont <> id)) ->
  (exists e, value_of (getContainerdContainer env id) c = Err e)
  /\ (exists code reply,
        trace (state_after (Restore X env id options) c)
        = trace c ++
          [ARpcState id (api_State env (trace c) id);
           ALock id;
           AStateChanged id {| State := StateExit X; Pid := 0;
                               ExitCode := code |} reply;
           AUnlock id])
  /\ containers (state_after (Restore X env id options) c) = containers c.
Proof.
  intros Hfail.
  assert (exists e, lookup_result id (api_State env (trace c) id) = Err e)
    as [e0 Hlookup].
  { destruct Hfail as [[e He]|(r & Hr & Hno)].
    - exists e. rewrite He. reflexivity.
    - eexists. rewrite Hr. apply lookup_result_no_match. exact Hno. }
  destruct (wp_run _ _ _ (Restore_not_found id options c e0 Hlookup))
    as (Ht & _ & Hc).
  split; [exists e0; rewrite getContainerdContainer_value; exact Hlookup|].
  split; [eauto|exact Hc].
Qed.

Lemma Restore_already_active id options c cont ct :
  value_of (getContainerdContainer env id) c = Ok cont ->
  containers c !! id = Some ct ->
  value_of (Restore X env id options) c = None
  /\ containers (state_after (Restore X env id options) c) = containers c
  /\ ends_with
       [ALog (ErrorRestoring id ("container " +:+ id +:+ " is aleady active"))]
       (trace (state_after (Restore X env id options) c)).
Proof.
  rewrite getContainerdContainer_value. intros Hlookup Hreg.
  pose proof (lookup_result_Ok_id _ _ _ Hlookup) as Hid.
  destruct (Restore_found id options c cont Hlookup) as [Hv Hs].
  set (c1 := emit (ARpcState id (api_State env (trace c) id)) c) in *.
  assert (Hreg1 : containers c1 !! containerd.Id cont = Some ct)
    by (rewrite Hid; exact Hreg).
  destruct (restore_already_active cont options c1 ct Hreg1)
    as (He & Hc & _).
  rewrite Hs, He, Hid. proj_simpl. rewrite Hc.
  repeat split; [exact Hv|]. ends_with_solve.
Qed.

Lemma Restore_known_keeps_backlog id options c cont :
  value_of (getContainerdContainer env id) c = Ok cont ->
  pastEvents (state_after (Restore X env id options) c) = pastEvents c.
Proof.
  rewrite getContainerdContainer_value. intros Hlookup.
  destruct (Restore_found id options c cont Hlookup) as [_ Hs].
  rewrite Hs.
  destruct (value_of (restore X env cont options) _); proj_simpl;
    rewrite restore_keeps_backlog; reflexivity.
Qed.

(** ** GetPidsForContainer *)

Lemma lookup_map_int bits (pids : list Z) (i : nat) p :
  pids !! i = Some p ->
  map (int_of_uint32 bits) pids !! i = Some (int_of_uint32 bits p).
Proof.
  revert i. induction pids as [|q pids IH]; intros [|i]; cbn;
    try discriminate.
  - intros [= ->]. reflexivity.
  - apply IH.
Qed.

(** C10: on a State reply that lists a container with the requested ID
    (the first such entry is used), GetPidsForContainer returns a list as
    long as the reported Pids whose i-th element is the int conversion of
    the i-th reported pid; on a reply that lists no such container it
    returns the "invalid state response" error and no list. *)
Theorem GetPidsForContainer_converts_pids id c r :
  api_State env (trace c) id = Ok r ->
  match find (fun cont => bool_decide (containerd.Id cont = id))
             (containerd.Containers r) with
  | Some cont =>
      containerd.Id cont = id
      /\ exists pids,
           value_of (GetPidsForContainer X env id) c = Ok pids
           /\ length pids = length (containerd.Pids cont)
           /\ forall (i : nat) p,
                containerd.Pids cont !! i = Some p ->
                pids !! i = Some (int_of_uint32 (intBits X) p)
  | None =>
      value_of (GetPidsForContainer X env id) c
        = Err "invalid state response"
  end.
Proof.
  intros Hreply.
  assert (Hv : value_of (GetPidsForContainer X env id) c
               = match lookup_result id (api_State env (trace c) id) with
                 | Ok cont => Ok (map (int_of_uint32 (intBits X))
                                      (containerd.Pids cont))
                 | Err e => Err e
                 end).
  { apply (wp_run _ (fun v _ => v = _)). unfold GetPidsForContainer.
    wp_step. apply wp_getContainerdContainer.
    destruct (lookup_result _ _); wp_exec; reflexivity. }
  rewrite Hv, Hreply. unfold lookup_result.
  destruct (find _ _) as [cont|] eqn:Hfind; [|reflexivity].
  split.
  { apply find_some in Hfind. destruct Hfind as [_ H].
    apply bool_decide_eq_true_1 in H. exact H. }
  eexists. split; [reflexivity|]. split; [apply length_map|].
  intros i p. apply lookup_map_int.
Qed.

Lemma GetPidsForContainer_rpc_error id c e :
  api_State env (trace c) id = Err e ->
  value_of (GetPidsForContainer X env id) c = Err e.
Proof.
  intros Hreply.
  apply (wp_run _ (fun v _ => v = _)). unfold GetPidsForContainer.
  wp_step. apply wp_getContainerdContainer. rewrite Hreply.
  cbn [lookup_result]. wp_exec. reflexivity.
Qed.

End Properties.

(** On a 64-bit [int] the conversion keeps every [uint32]. *)
Lemma int_of_uint32_64 p : 0 <= p < 2 ^ 32 -> int_of_uint32 64 p = p.
Proof.
  intros Hp. unfold int_of_uint32.
  rewrite Z.mod_small by lia.
  destruct (Z.ltb_spec p (2 ^ (64 - 1))); [reflexivity|lia].
Qed.

(** * The scenarios, run *)

(** C1: the daemon knows "c1" and a pause event for "c1" waits in the
    backlog.  Restore succeeds and forwards the pause notification, yet the
    backlog still holds the entry afterwards: the restore path reads the
    backlog without deleting from it. *)
Theorem Restore_known_leaves_backlog_entry :
  value_of (Restore sample_extern env_ok "c1" []) client_backlog_pause = None
  /\ In (AStateChanged "c1" {| State := "pause"; Pid := 42; ExitCode := 0 |}
                       None)
        (trace (state_after (Restore sample_extern env_ok "c1" [])
                            client_backlog_pause))
  /\ pastEvents (state_after (Restore sample_extern env_ok "c1" [])
                             client_backlog_pause) !! "c1"
     = Some pause_event.
Proof.
  split; [vm_compute; reflexivity|].
  split; [vm_compute; tauto|].
  rewrite (Restore_known_keeps_backlog sample_extern env_ok "c1" []
             client_backlog_pause daemon_c1); reflexivity.
Qed.

(** The State RPC fails and the Backend rejects the Exit notification:
    Restore hands the Backend's error to its caller. *)
Lemma Restore_returns_backend_error :
  value_of (Restore sample_extern env_rpc_down "c1" []) client_empty
  = Some "backend down".
Proof. vm_compute. reflexivity. Qed.

(** Pause of a running container: a waiter is appended, and no release of
    the per-ID lock comes before that append. *)
Lemma Pause_appends_waiter_before_unlock :
  existsb (is_pause_append "c1")
          (trace (state_after (Pause sample_extern env_ok "c1") client_running))
  = true
  /\ occurs_before (is_unlock "c1") (is_pause_append "c1")
       (trace (state_after (Pause sample_extern env_ok "c1") client_running))
     = false.
Proof. split; vm_compute; reflexivity. Qed.

Lemma Pause_Resume_no_active_process_witness :
  containers client_no_process !! "c1" = Some (container_c1 0)
  /\ c_systemPid (container_c1 0) = 0
  /\ value_of (Pause sample_extern env_ok "c1") client_no_process
     = Some "No active process for container c1"
  /\ value_of (Resume sample_extern env_ok "c1") client_no_process
     = Some "No active process for container c1".
Proof.
  split; [reflexivity|]. split; [reflexivity|].
  destruct (Pause_Resume_no_active_process sample_extern env_ok "c1"
              client_no_process (container_c1 0) eq_refl eq_refl)
    as [(Hp & _) (Hr & _)].
  split; assumption.
Defined.

Lemma setState_waiter_follows_accepted_rpc_witness :
  containers client_running !! "c1" = Some (container_c1 42)
  /\ c_systemPid (container_c1 42) <> 0
  /\ value_of (setState sample_extern env_ok "c1" "pause") client_running
     = None
  /\ trace (state_after (setState sample_extern env_ok "c1" "pause")
                        client_running)
     = [ALock "c1"; ARpcUpdateContainer "c1" "init" "paused" None;
        APauseAppend "c1" "pause" 0%nat; AUnlock "c1"; AChanRecv 0%nat].
Proof.
  assert (H42 : c_systemPid (container_c1 42) <> 0) by discriminate.
  split; [reflexivity|]. split; [exact H42|].
  destruct (setState_waiter_follows_accepted_rpc sample_extern env_ok "c1"
              "pause" client_running (container_c1 42) eq_refl H42)
    as (Hv & Ht & _).
  split; [exact Hv | exact Ht].
Defined.

Lemma restore_rejects_registered_id_witness :
  containers client_running !! containerd.Id daemon_c1
    = Some (container_c1 42)
  /\ value_of (restore sample_extern env_ok daemon_c1 []) client_running
     = Some "container c1 is aleady active"
  /\ containers (state_after (restore sample_extern env_ok daemon_c1 [])
                             client_running)
     = containers client_running.
Proof.
  split; [reflexivity|].
  destruct (restore_rejects_registered_id sample_extern env_ok daemon_c1 []
              client_running (container_c1 42) eq_refl) as (Hv & Hc & _).
  split; [exact Hv | exact Hc].
Defined.

Lemma restore_failure_leaves_no_registration_witness :
  containers client_empty !! containerd.Id daemon_c1 = None
  /\ value_of (restore sample_extern env_backend_down daemon_c1 [])
              client_empty = Some "backend down"
  /\ containers (state_after (restore sample_extern env_backend_down
                                      daemon_c1 []) client_empty)
       !! "c1" = None
  /\ containers (state_after (restore sample_extern env_backend_down
                                      daemon_c1 []) client_empty)
     = containers client_empty.
Proof.
  split; [reflexivity|]. split; [vm_compute; reflexivity|].
  destruct (restore_failure_leaves_no_registration sample_extern
              env_backend_down daemon_c1 [] client_empty "backend down"
              eq_refl ltac:(vm_compute; reflexivity)) as (Hnone & _ & Hsame).
  split; [exact Hnone|]. apply Hsame. vm_compute. reflexivity.
Defined.

Lemma Restore_not_found_reports_exit_witness :
  value_of (getContainerdContainer env_no_record "c2") client_backlog_exit
    = Err "invalid state response"
  /\ pastEvents (state_after (Restore sample_extern env_no_record "c2" [])
                             client_backlog_exit) !! "c2" = None
  /\ trace (state_after (Restore sample_extern env_no_record "c2" [])
                        client_backlog_exit)
     = [ARpcState "c2" (Ok {| containerd.Containers := [] |});
        ALock "c2";
        AStateChanged "c2" {| State := "exit"; Pid := 0; ExitCode := 7 |} None;
        AUnlock "c2"].
Proof.
  split; [vm_compute; reflexivity|].
  destruct (Restore_not_found_reports_exit sample_extern env_no_record "c2" []
              client_backlog_exit "invalid state response"
              ltac:(vm_compute; reflexivity)) as (_ & Hnone & Ht).
  split; [exact Hnone | exact Ht].
Defined.

Lemma restore_attaches_before_announcing_witness :
  trace (state_after (restore sample_extern env_ok daemon_c1 []) client_empty)
    = trace client_empty
      ++ [ALock "c1"; ALog (DebugRestore "c1" "running");
          AOpenFifos "c1" (Ok 7%nat); AAttachStreams "c1" 7%nat None]
      ++ ARegister "c1"
         :: [AStateChanged "c1" {| State := "restore"; Pid := 42;
                                   ExitCode := 0 |} None;
             AUnlock "c1"]
  /\ announces (ARegister "c1") = true
  /\ exists io,
       In (AAttachStreams "c1" io None)
          [ALock "c1"; ALog (DebugRestore "c1" "running");
           AOpenFifos "c1" (Ok 7%nat); AAttachStreams "c1" 7%nat None].
Proof.
  split; [vm_compute; reflexivity|]. split; [reflexivity|].
  exact (restore_attaches_before_announcing sample_extern env_ok daemon_c1 []
           client_empty
           [ALock "c1"; ALog (DebugRestore "c1" "running");
            AOpenFifos "c1" (Ok 7%nat); AAttachStreams "c1" 7%nat None]
           (ARegister "c1")
           [AStateChanged "c1" {| State := "restore"; Pid := 42;
                                  ExitCode := 0 |} None;
            AUnlock "c1"]
           ltac:(vm_compute; reflexivity) eq_refl).
Defined.

Lemma Restore_lookup_failure_takes_exit_path_witness :
  (exists e, api_State env_rpc_down (trace client_backlog_pause) "c1" = Err e)
  /\ (exists e,
        value_of (getContainerdContainer env_rpc_down "c1")
                 client_backlog_pause = Err e)
  /\ containers (state_after (Restore sample_extern env_rpc_down "c1" [])
                             client_backlog_pause)
     = containers client_backlog_pause.
Proof.
  assert (Hdown : exists e,
            api_State env_rpc_down (trace client_backlog_pause) "c1" = Err e)
    by (eexists; reflexivity).
  split; [exact Hdown|].
  destruct (Restore_lookup_failure_takes_exit_path sample_extern env_rpc_down
              "c1" [] client_backlog_pause (or_introl Hdown))
    as (Herr & _ & Hc).
  split; [exact Herr | exact Hc].
Defined.

Lemma GetPidsForContainer_converts_pids_witness :
  api_State env_ok (trace client_empty) "c1"
    = Ok {| containerd.Containers := [daemon_c1] |}
  /\ exists pids,
       value_of (GetPidsForContainer sample_extern env_ok "c1") client_empty
         = Ok pids
       /\ length pids = 2%nat
       /\ pids !! 1%nat = Some 43.
Proof.
  split; [reflexivity|].
  pose proof (GetPidsForContainer_converts_pids sample_extern env_ok "c1"
                client_empty _ eq_refl) as H.
  hnf in H. destruct H as (_ & pids & Hv & Hlen & Hnth).
  exists pids. split; [exact Hv|]. split; [exact Hlen|].
  exact (Hnth 1%nat 43 eq_refl).
Defined.

Lemma Restore_return_value_witness :
  value_of (Restore sample_extern env_backend_down "c1" []) client_empty = None
  /\ ends_with [ALog (ErrorRestoring "c1" "backend down")]
       (trace (state_after (Restore sample_extern env_backend_down "c1" [])
                           client_empty)).
Proof.
  pose proof (Restore_return_value sample_extern env_backend_down "c1" []
                client_empty) as H.
  hnf in H. destruct H as [Hv Hlog].
  split; [exact Hv|]. apply Hlog. vm_compute. reflexivity.
Defined.

(** * Further properties of the client *)

Section MoreProperties.

Variable X : Extern.
Variable env : Env.

(** ** The per-ID lock *)

(** X1: taking and releasing the lock of an ID leaves its mutex in the
    table, free, whether or not the mutex existed before; the mutexes of
    all other IDs are as they were. *)
Theorem lock_then_unlock id c :
  containerMutexes (state_after (lock id;; unlock id) c)
    = <[id := false]> (containerMutexes c)
  /\ trace (state_after (lock id;; unlock id) c)
     = trace c ++ [ALock id; AUnlock id].
Proof.
  apply (wp_run (lock id;; unlock id)
           (fun _ c' => containerMutexes c' = _ /\ trace c' = _)).
  wp_exec. split; [apply insert_insert_eq | trace_eq].
Qed.

(** X2: unlocking an ID that has no mutex in the table is reported with
    a warning in the log and changes nothing else: no mutex is created and
    registry and backlog are untouched. *)
Theorem unlock_unknown_id id c :
  containerMutexes c !! id = None ->
  state_after (unlock id) c = emit (ALog (WarnUnlockMissing id)) c.
Proof.
  intros Hnone.
  apply (wp_run (unlock id) (fun _ c' => c' = _)).
  unfold unlock. wp_exec. rewrite Hnone. wp_exec. reflexivity.
Qed.

(** ** Pause and Resume *)

Lemma setState_mutexes id state c :
  wp (setState X env id state)
     (fun _ c' =>
        containerMutexes c' = <[id := false]> (containerMutexes c)
        /\ pastEvents c' = pastEvents c
        /\ dom (containers c') = dom (containers c)
        /\ delete id (containers c') = delete id (containers c)) c.
Proof.
  unfold setState. wp_all.
  all: repeat split; try apply insert_insert_eq.
  - apply dom_alter_L.
  - apply delete_alter_eq.
Qed.

(** X3: whatever the outcome, setState ends with the mutex of its ID
    released and every other mutex as it was; the backlog is untouched, no
    container is added to or removed from the registry, and the entries of
    other IDs are unchanged. *)
Theorem setState_frame id state c :
  containerMutexes (state_after (setState X env id state) c)
    = <[id := false]> (containerMutexes c)
  /\ pastEvents (state_after (setState X env id state) c) = pastEvents c
  /\ dom (containers (state_after (setState X env id state) c))
     = dom (containers c)
  /\ delete id (containers (state_after (setState X env id state) c))
     = delete id (containers c).
Proof. exact (wp_run _ _ _ (setState_mutexes id state c)). Qed.

(** X4: Pause or Resume of an ID that is not registered fails with the
    "invalid container" error; the call only takes and releases the lock:
    no RPC is issued, no channel is allocated and the registry is
    unchanged. *)
Theorem setState_unregistered id state c :
  containers c !! id = None ->
  value_of (setState X env id state) c = Some ("invalid container: " +:+ id)
  /\ trace (state_after (setState X env id state) c)
     = trace c ++ [ALock id; AUnlock id]
  /\ containers (state_after (setState X env id state) c) = containers c
  /\ nextChan (state_after (setState X env id state) c) = nextChan c.
Proof.
  intros Hnone.
  apply (wp_run (setState X env id state)
           (fun r c' => r = _ /\ trace c' = _ /\ containers c' = _
                        /\ nextChan c' = _)).
  unfold setState. wp_exec. rewrite Hnone. wp_exec.
  repeat split. trace_eq.
Qed.

(** ** restore *)

Lemma restore_effects cont options c :
  wp (restore X env cont options)
     (fun _ c' =>
        containerMutexes c'
          = <[containerd.Id cont := false]> (containerMutexes c)
        /\ pastEvents c' = pastEvents c
        /\ nextChan c' = nextChan c
        /\ delete (p_id (proc (restored_container X cont options)))
                  (delete (containerd.Id cont) (containers c'))
           = delete (p_id (proc (restored_container X cont options)))
                    (delete (containerd.Id cont) (containers c))) c.
Proof.
  unfold restore, restore_body, restored_container. wp_all.
  all: cbn [proc with_systemPid].
  all: repeat split; try apply insert_insert_eq.
  all: apply map_eq; intros k;
       repeat first [rewrite lookup_delete | rewrite lookup_insert];
       repeat case_decide; congruence.
Qed.

(** X6: whatever the collaborators answer, restore ends with the mutex of
    its ID released; it leaves the backlog and the channel counter as they
    were, and in the registry it touches at most the entry of the ID and the
    entry under the key of the container it built. *)
Theorem restore_frame cont options c :
  containerMutexes (state_after (restore X env cont options) c)
    = <[containerd.Id cont := false]> (containerMutexes c)
  /\ pastEvents (state_after (restore X env cont options) c) = pastEvents c
  /\ nextChan (state_after (restore X env cont options) c) = nextChan c
  /\ delete (p_id (proc (restored_container X cont options)))
            (delete (containerd.Id cont)
                    (containers (state_after (restore X env cont options) c)))
     = delete (p_id (proc (restored_container X cont options)))
              (delete (containerd.Id cont) (containers c)).
Proof. exact (wp_run _ _ _ (restore_effects cont options c)). Qed.

Lemma restore_success cont options c :
  wp (restore X env cont options)
     (fun r c' =>
        r = None ->
        containers c'
          = <[p_id (proc (restored_container X cont options))
              := restored_container X cont options]> (containers c)
        /\ (pastEvents c !! containerd.Id cont = None ->
            exists io,
              trace c' = trace c ++
                [ALock (containerd.Id cont);
                 ALog (DebugRestore (containerd.Id cont)
                                    (containerd.Status cont))]
                ++ options_logs options
                     (fresh_container X (containerd.BundlePath cont))
                ++ [AOpenFifos
                      (p_id (proc (restored_container X cont options)))
                      (Ok io);
                    AAttachStreams (containerd.Id cont) io None;
                    ARegister
                      (p_id (proc (restored_container X cont options)));
                    AStateChanged (containerd.Id cont)
                      {| State := StateRestore X;
                         Pid := systemPid X cont;
                         ExitCode := 0 |} None;
                    AUnlock (containerd.Id cont)])) c.
Proof.
  unfold restore, restore_body, restored_container, fresh_container.
  wp_all; intros Hr; try discriminate Hr.
  all: cbn [proc with_systemPid c_systemPid].
  all: (split; [reflexivity|]); intros Hnone; try congruence.
  eexists. rewrite <- ?app_assoc. reflexivity.
Qed.

(** X7: a restore that succeeds while the backlog holds nothing for the
    ID registers the container built from the daemon's report and performs,
    in this order and under the per-ID lock: opening the fifos, a successful
    AttachStreams, the registration, and exactly one StateChanged, the
    Restore notification carrying the reported system pid. *)
Theorem restore_without_backlog cont options c :
  value_of (restore X env cont options) c = None ->
  pastEvents c !! containerd.Id cont = None ->
  containers (state_after (restore X env cont options) c)
    = <[p_id (proc (restored_container X cont options))
        := restored_container X cont options]> (containers c)
  /\ exists io,
       trace (state_after (restore X env cont options) c)
       = trace c ++
         [ALock (containerd.Id cont);
          ALog (DebugRestore (containerd.Id cont) (containerd.Status cont))]
         ++ options_logs options
              (fresh_container X (containerd.BundlePath cont))
         ++ [AOpenFifos (p_id (proc (restored_container X cont options)))
                        (Ok io);
             AAttachStreams (containerd.Id cont) io None;
             ARegister (p_id (proc (restored_container X cont options)));
             AStateChanged (containerd.Id cont)
               {| State := StateRestore X;
                  Pid := systemPid X cont;
                  ExitCode := 0 |} None;
             AUnlock (containerd.Id cont)].
Proof.
  intros Hr Hnone.
  destruct (wp_run _ _ _ (restore_success cont options c) Hr) as [Hc Ht].
  split; [exact Hc | exact (Ht Hnone)].
Qed.

(** X8: after a successful restore that registered the container under
    its own ID, a second restore of the same daemon report fails with the
    "is aleady active" error and leaves the registry as the first one
    left it. *)
Theorem restore_twice cont options options' c :
  value_of (restore X env cont options) c = None ->
  p_id (proc (restored_container X cont options)) = containerd.Id cont ->
  value_of (restore X env cont options')
           (state_after (restore X env cont options) c)
    = Some ("container " +:+ containerd.Id cont +:+ " is aleady active")
  /\ containers (state_after (restore X env cont options')
                             (state_after (restore X env cont options) c))
     = containers (state_after (restore X env cont options) c).
Proof.
  intros Hr Hkey.
  destruct (wp_run _ _ _ (restore_success cont options c) Hr) as [Hc _].
  rewrite Hkey in Hc.
  assert (Hreg : containers (state_after (restore X env cont options) c)
                   !! containerd.Id cont
                 = Some (restored_container X cont options))
    by (rewrite Hc; apply lookup_insert_eq).
  destruct (restore_already_active X env cont options' _ _ Hreg)
    as (Hv & Hsame & _).
  split; [exact Hv | exact Hsame].
Qed.

Lemma restore_error_source cont options c :
  containers c !! containerd.Id cont = None ->
  wp (restore X env cont options)
     (fun r c' =>
        forall e, r = Some e ->
          exists l failing,
            trace c' = trace c ++ l
            /\ ends_with [failing; ADeregister (containerd.Id cont);
                          AUnlock (containerd.Id cont)] l
            /\ failed_with e failing = true) c.
Proof.
  intros Hfree. unfold restore, restore_body. wp_exec. rewrite Hfree.
  wp_all; intros e' He'; try discriminate He'.
  all: injection He' as <-.
  all: rewrite <- ?app_assoc; eexists; eexists;
       (split; [reflexivity|]); cbn [app].
  all: (split; [ends_with_solve|]).
  all: cbn [failed_with]; apply bool_decide_eq_true_2; reflexivity.
Qed.

(** X9: a failed restore of an unregistered ID stops at the first
    collaborator call that fails (opening the fifos, AttachStreams, or a
    StateChanged notification) and returns that call's error unchanged; the
    only actions after the failing call are the compensating delete and the
    unlock. *)
Theorem restore_returns_first_failure cont options c e :
  containers c !! containerd.Id cont = None ->
  value_of (restore X env cont options) c = Some e ->
  exists l failing,
    trace (state_after (restore X env cont options) c) = trace c ++ l
    /\ ends_with [failing; ADeregister (containerd.Id cont);
                  AUnlock (containerd.Id cont)] l
    /\ failed_with e failing = true.
Proof.
  intros Hfree He.
  exact (wp_run _ _ _ (restore_error_source cont options c Hfree) e He).
Qed.

(** X22: the system pid of a restored container is the one the daemon
    reported.  When a restore succeeded under the container's own ID and the
    daemon reported no init process (system pid 0), a following Pause fails
    with the "No active process" error and sends no RPC. *)
Theorem restore_then_Pause_without_process cont options c :
  value_of (restore X env cont options) c = None ->
  p_id (proc (restored_container X cont options)) = containerd.Id cont ->
  systemPid X cont = 0 ->
  value_of (Pause X env (containerd.Id cont))
           (state_after (restore X env cont options) c)
    = Some ("No active process for container " +:+ containerd.Id cont)
  /\ trace (state_after (Pause X env (containerd.Id cont))
                        (state_after (restore X env cont options) c))
     = trace (state_after (restore X env cont options) c)
       ++ [ALock (containerd.Id cont); AUnlock (containerd.Id cont)].
Proof.
  intros Hr Hkey Hpid.
  destruct (wp_run _ _ _ (restore_success cont options c) Hr) as [Hc _].
  rewrite Hkey in Hc.
  assert (Hreg : containers (state_after (restore X env cont options) c)
                   !! containerd.Id cont
                 = Some (restored_container X cont options))
    by (rewrite Hc; apply lookup_insert_eq).
  destruct (setState_no_active_process X env (containerd.Id cont)
              (StatePause X) _ _ Hreg Hpid) as (Hv & Ht & _).
  split; [exact Hv | exact Ht].
Qed.

(** ** Restore *)

Lemma Restore_effects id options c :
  containerMutexes (state_after (Restore X env id options) c)
    = <[id := false]> (containerMutexes c)
  /\ delete id (pastEvents (state_after (Restore X env id options) c))
     = delete id (pastEvents c)
  /\ nextChan (state_after (Restore X env id options) c) = nextChan c.
Proof.
  destruct (lookup_result id (api_State env (trace c) id)) as [cont|e0]
    eqn:Hlookup.
  - destruct (Restore_found X env id options c cont Hlookup) as [_ Hs].
    pose proof (lookup_result_Ok_id _ _ _ Hlookup) as Hid.
    pose proof (wp_run _ _ _
      (restore_effects cont options
         (emit (ARpcState id (api_State env (trace c) id)) c)))
      as (Hm & Hp & Hn & _).
    rewrite Hid in Hm. rewrite Hs.
    destruct (value_of (restore X env cont options) _); proj_simpl;
      rewrite Hm, Hp, Hn; auto.
  - apply (wp_run (Restore X env id options)
             (fun _ c' => containerMutexes c' = _
                          /\ delete id (pastEvents c') = _
                          /\ nextChan c' = _)).
    unfold Restore. wp_step. apply wp_getContainerdContainer.
    rewrite Hlookup. wp_all.
    all: repeat split; try apply insert_insert_eq.
    apply delete_delete_eq.
Qed.

(** X10: on every path Restore ends with the mutex of its ID released
    and all other mutexes as they were; the backlog entries of all other IDs
    are untouched, and no channel is allocated. *)
Theorem Restore_frame id options c :
  containerMutexes (state_after (Restore X env id options) c)
    = <[id := false]> (containerMutexes c)
  /\ delete id (pastEvents (state_after (Restore X env id options) c))
     = delete id (pastEvents c)
  /\ nextChan (state_after (Restore X env id options) c) = nextChan c.
Proof. exact (Restore_effects id options c). Qed.

(** X11: the exit code of a backlog event is reported once.  When the
    daemon lookup for an ID fails twice in a row, the first Restore reports
    the status of the pending event and the second Restore reports exit
    code 0. *)
Theorem Restore_reports_exit_code_once id options options' c e1 e2 :
  value_of (getContainerdContainer env id) c = Err e1 ->
  value_of (getContainerdContainer env id)
           (state_after (Restore X env id options) c) = Err e2 ->
  exists reply1 reply2 rpc1 rpc2,
    trace (state_after (Restore X env id options')
                       (state_after (Restore X env id options) c))
    = trace c ++
      [rpc1; ALock id;
       AStateChanged id {| State := StateExit X; Pid := 0;
                           ExitCode := backlog_exit_code c id |} reply1;
       AUnlock id;
       rpc2; ALock id;
       AStateChanged id {| State := StateExit X; Pid := 0;
                           ExitCode := 0 |} reply2;
       AUnlock id].
Proof.
  rewrite !getContainerdContainer_value. intros H1 H2.
  destruct (wp_run _ _ _ (Restore_not_found X env id options c e1 H1))
    as (Ht1 & Hp1 & _).
  destruct (wp_run _ _ _
              (Restore_not_found X env id options'
                 (state_after (Restore X env id options) c) e2 H2))
    as (Ht2 & _ & _).
  assert (Hcode : backlog_exit_code
                    (state_after (Restore X env id options) c) id = 0).
  { unfold backlog_exit_code. rewrite Hp1, lookup_delete_eq. reflexivity. }
  rewrite Hcode in Ht2. rewrite Ht2, Ht1, <- app_assoc.
  do 4 eexists. reflexivity.
Qed.

(** ** Lookup in the daemon *)

(** X12: getContainerdContainer succeeds exactly when the State RPC
    succeeds and its reply lists a container with the requested ID; the
    container it returns carries that ID and is one of the listed ones. *)
Theorem getContainerdContainer_succeeds_iff id c :
  ((exists cont, value_of (getContainerdContainer env id) c = Ok cont)
   <-> (exists r cont,
          api_State env (trace c) id = Ok r
          /\ In cont (containerd.Containers r)
          /\ containerd.Id cont = id))
  /\ (forall cont,
        value_of (getContainerdContainer env id) c = Ok cont ->
        containerd.Id cont = id
        /\ exists r, api_State env (trace c) id = Ok r
                     /\ In cont (containerd.Containers r)).
Proof.
  rewrite getContainerdContainer_value. unfold lookup_result.
  destruct (api_State env (trace c) id) as [r|e].
  - destruct (find _ _) as [cont0|] eqn:Hfind.
    + apply find_some in Hfind. destruct Hfind as [Hin Hid].
      apply bool_decide_eq_true_1 in Hid.
      split.
      * split; [intros _; exists r, cont0; auto | intros _; eauto].
      * intros cont [= <-]. split; [exact Hid | eauto].
    + split; [|intros cont H; discriminate H].
      split; [intros [cont H]; discriminate H|].
      intros (r' & cont & [= <-] & Hin & Hid).
      pose proof (find_none _ _ Hfind cont Hin) as Hno. cbv beta in Hno.
      apply bool_decide_eq_false_1 in Hno. destruct (Hno Hid).
  - split; [|intros cont H; discriminate H].
    split; [intros [cont H]; discriminate H|].
    intros (r' & cont & H & _). discriminate H.
Qed.

(** ** GetPidsForContainer *)

(** X13: GetPidsForContainer only queries the daemon: it takes no lock
    and leaves lock table, registry, backlog and channel counter as they
    were; an error of the State RPC is returned unchanged. *)
Theorem GetPidsForContainer_read_only id c :
  state_after (GetPidsForContainer X env id) c
    = emit (ARpcState id (api_State env (trace c) id)) c
  /\ match api_State env (trace c) id with
     | Err e => value_of (GetPidsForContainer X env id) c = Err e
     | Ok _ => True
     end.
Proof.
  split.
  - apply (wp_run _ (fun _ c' => c' = _)). unfold GetPidsForContainer.
    wp_step. apply wp_getContainerdContainer.
    destruct (lookup_result _ _); wp_exec; reflexivity.
  - destruct (api_State env (trace c) id) as [r|e] eqn:Hreply; [exact I|].
    apply GetPidsForContainer_rpc_error. exact Hreply.
Qed.

Lemma GetPidsForContainer_value id c :
  value_of (GetPidsForContainer X env id) c
  = match lookup_result id (api_State env (trace c) id) with
    | Ok cont => Ok (map (int_of_uint32 (intBits X)) (containerd.Pids cont))
    | Err e => Err e
    end.
Proof.
  apply (wp_run _ (fun v _ => v = _)). unfold GetPidsForContainer.
  wp_step. apply wp_getContainerdContainer.
  destruct (lookup_result _ _); wp_exec; reflexivity.
Qed.

(** X14: where [int] has 64 bits, GetPidsForContainer returns the
    reported pids themselves, provided each is a uint32. *)
Theorem GetPidsForContainer_64bit id c cont :
  intBits X = 64 ->
  value_of (getContainerdContainer env id) c = Ok cont ->
  Forall (fun p => 0 <= p < 2 ^ 32) (containerd.Pids cont) ->
  value_of (GetPidsForContainer X env id) c = Ok (containerd.Pids cont).
Proof.
  rewrite getContainerdContainer_value, GetPidsForContainer_value.
  intros Hbits -> Hrange. rewrite Hbits. f_equal.
  induction Hrange as [|p pids Hp _ IH]; [reflexivity|].
  cbn [map]. rewrite IH, int_of_uint32_64 by exact Hp. reflexivity.
Qed.

(** ** newContainer *)

Lemma options_logs_are_logs options ct :
  forallb is_option_log (options_logs options ct) = true
  /\ (length (options_logs options ct) <= length options)%nat.
Proof.
  revert ct. induction options as [|o rest IH]; intros ct.
  - split; [reflexivity | cbn; lia].
  - cbn [options_logs]. destruct (IH (fst (o ct))) as [Hall Hlen].
    rewrite forallb_app, length_app.
    destruct (snd (o ct)); cbn; rewrite Hall; split; try reflexivity; lia.
Qed.

(** X15: newContainer cannot fail and does not touch lock table,
    registry, backlog or channel counter: it only appends log lines, each
    one the error of an option, and at most one per option. *)
Theorem newContainer_only_logs dir options c :
  exists logs,
    state_after (newContainer X dir options) c = emits logs c
    /\ forallb is_option_log logs = true
    /\ (length logs <= length options)%nat.
Proof.
  exists (options_logs options (fresh_container X dir)).
  split; [|apply options_logs_are_logs].
  apply (wp_run _ (fun _ c' => c' = _)).
  unfold newContainer, fresh_container. wp_exec. reflexivity.
Qed.

Lemma options_container_keeps_proc options ct :
  (forall o ct', In o options -> proc (fst (o ct')) = proc ct') ->
  proc (options_container options ct) = proc ct.
Proof.
  revert ct. induction options as [|o rest IH]; intros ct Hkeep.
  - reflexivity.
  - cbn [options_container]. rewrite IH.
    + apply Hkeep. left. reflexivity.
    + intros o' ct' Hin. apply Hkeep. right. exact Hin.
Qed.

(** X16: when no option changes the process part of the container, the
    container that newContainer returns has the base name of the bundle
    directory as its id, that directory as its dir, and the init process
    ID, however many options fail. *)
Theorem newContainer_identity dir options c :
  (forall o ct, In o options -> proc (fst (o ct)) = proc ct) ->
  proc (value_of (newContainer X dir options) c)
  = {| p_id := filepath_Base dir; p_dir := dir;
       p_processID := initProcessID X |}.
Proof.
  intros Hkeep.
  assert (Hv : value_of (newContainer X dir options) c
               = options_container options (fresh_container X dir)).
  { apply (wp_run _ (fun v _ => v = _)).
    unfold newContainer, fresh_container. wp_exec. reflexivity. }
  rewrite Hv. apply options_container_keeps_proc. exact Hkeep.
Qed.

(** ** The registry *)

(** X17: a container put into the registry is found under its own id;
    after deleting an id the lookup fails with the "invalid container"
    error, and deleting what was just appended leaves every other entry as
    it was. *)
Theorem registry_round_trip ct c :
  value_of (getContainer (p_id (proc ct)))
           (state_after (appendContainer ct) c) = Ok ct
  /\ value_of (getContainer (p_id (proc ct)))
              (state_after (appendContainer ct;;
                            deleteContainer (p_id (proc ct))) c)
     = Err ("invalid container: " +:+ p_id (proc ct))
  /\ containers (state_after (appendContainer ct;;
                              deleteContainer (p_id (proc ct))) c)
     = delete (p_id (proc ct)) (containers c).
Proof.
  split; [|split].
  - apply (wp_run (appendContainer ct)
             (fun _ c' => value_of (getContainer _) c' = _)).
    wp_exec. apply (wp_run (getContainer _) (fun r _ => r = _)).
    wp_exec. rewrite lookup_insert_eq. wp_exec. reflexivity.
  - apply (wp_run (appendContainer ct;; deleteContainer _)
             (fun _ c' => value_of (getContainer _) c' = _)).
    wp_exec. apply (wp_run (getContainer _) (fun r _ => r = _)).
    wp_exec. rewrite lookup_delete_eq. wp_exec. reflexivity.
  - apply (wp_run (appendContainer ct;; deleteContainer _)
             (fun _ c' => containers c' = _)).
    wp_exec. apply delete_insert_eq.
Qed.

End MoreProperties.

(** * Signal, Resize and Stats *)

Lemma lift_run {A} (m : M A) w l :
  trace (state_after m (cl w)) = trace (cl w) ++ l ->
  lift m w = (value_of m (cl w),
              {| cl := state_after m (cl w);
                 steps := steps w ++ map Act l |}).
Proof.
  unfold lift, new_actions, value_of, state_after.
  destruct (m (cl w)) as [a c']. cbn [fst snd]. intros ->.
  rewrite drop_app_length. reflexivity.
Qed.

Lemma lock_state id c :
  state_after (lock id) c = emit (ALock id) (set_mutexes (<[id := true]>) c).
Proof.
  apply (wp_run (lock id) (fun _ c' => c' = _)). wp_exec. reflexivity.
Qed.

Lemma unlock_state id c :
  is_Some (containerMutexes c !! id) ->
  state_after (unlock id) c
  = emit (AUnlock id) (set_mutexes (<[id := false]>) c).
Proof.
  intros Hsome. apply (wp_run (unlock id) (fun _ c' => c' = _)).
  apply wp_unlock; [exact Hsome | reflexivity].
Qed.

(** The shape shared by Signal and Resize: a registry check and one RPC,
    both under the per-ID lock. *)
Lemma locked_call_run (id : string) (reply : list step -> option error)
      (mk : option error -> rpc) w :
  (lift (lock id);;
   r <- lift (getContainer id);;
   match r with
   | Err e => lift (unlock id);; retW (Some e)
   | Ok _ => err <- callW reply mk;; lift (unlock id);; retW err
   end)%world w
  = match containers (cl w) !! id with
    | None =>
        (Some ("invalid container: " +:+ id),
         {| cl := emit (AUnlock id)
                    (set_mutexes (<[id := false]>)
                       (emit (ALock id)
                          (set_mutexes (<[id := true]>) (cl w))));
            steps := steps w ++ [Act (ALock id); Act (AUnlock id)] |})
    | Some _ =>
        let r := reply (steps w ++ [Act (ALock id)]) in
        (r,
         {| cl := emit (AUnlock id)
                    (set_mutexes (<[id := false]>)
                       (emit (ALock id)
                          (set_mutexes (<[id := true]>) (cl w))));
            steps := steps w ++ [Act (ALock id); Rpc (mk r);
                                 Act (AUnlock id)] |})
    end.
Proof.
  unfold bindW at 1.
  rewrite (lift_run (lock id) w [ALock id])
    by (rewrite lock_state; reflexivity).
  rewrite lock_state. unfold bindW at 1.
  set (w1 := {| cl := emit (ALock id) (set_mutexes <[id:=true]> (cl w));
                steps := steps w ++ map Act [ALock id] |}).
  assert (Hheld : is_Some (containerMutexes (cl w1) !! id)).
  { cbn. rewrite lookup_insert_eq. eauto. }
  assert (Hget : lift (getContainer id) w1
                 = (match containers (cl w) !! id with
                    | Some ct => Ok ct
                    | None => Err ("invalid container: " +:+ id)
                    end, w1)).
  { rewrite (lift_run (getContainer id) w1 []).
    - unfold value_of, state_after, getContainer, bind, gets, ret.
      cbn [fst snd cl w1 containers emit set_mutexes].
      destruct (containers (cl w) !! id); cbn [fst snd map];
        rewrite app_nil_r; reflexivity.
    - unfold state_after, getContainer, bind, gets, ret.
      cbn [fst snd cl w1 containers emit set_mutexes].
      destruct (containers (cl w) !! id); cbn [fst snd];
        rewrite app_nil_r; reflexivity. }
  rewrite Hget.
  destruct (containers (cl w) !! id) as [ct|].
  - unfold bindW, callW, retW. cbn [cl steps w1 map].
    set (r := reply _).
    set (w2 := {| cl := _; steps := _ |}).
    rewrite (lift_run (unlock id) w2 [AUnlock id])
      by (rewrite unlock_state by exact Hheld; reflexivity).
    rewrite unlock_state by exact Hheld.
    cbn [cl steps w2 map]. rewrite <- !app_assoc. reflexivity.
  - unfold bindW, retW.
    rewrite (lift_run (unlock id) w1 [AUnlock id])
      by (rewrite unlock_state by exact Hheld; reflexivity).
    rewrite unlock_state by exact Hheld.
    cbn [cl steps w1 map]. rewrite <- !app_assoc. reflexivity.
Qed.

Section ProcessProperties.

Variable X : Extern.
Variable papi : ProcessApi.

(** X18: Signal of an unregistered ID fails with the "invalid container"
    error without any RPC.  For a registered ID it sends one Signal RPC to
    the init process while holding the per-ID lock and returns the RPC's
    outcome unchanged.  Either way the lock is released at the end, and
    registry and backlog are untouched. *)
Theorem Signal_outcome id sig w :
  match containers (cl w) !! id with
  | None =>
      fst (Signal X papi id sig w) = Some ("invalid container: " +:+ id)
      /\ steps (snd (Signal X papi id sig w))
         = steps w ++ [Act (ALock id); Act (AUnlock id)]
  | Some _ =>
      steps (snd (Signal X papi id sig w))
      = steps w ++
        [Act (ALock id);
         Rpc (RSignal id (initProcessID X) (uint32 sig)
                      (fst (Signal X papi id sig w)));
         Act (AUnlock id)]
  end
  /\ containerMutexes (cl (snd (Signal X papi id sig w)))
     = <[id := false]> (containerMutexes (cl w))
  /\ containers (cl (snd (Signal X papi id sig w))) = containers (cl w)
  /\ pastEvents (cl (snd (Signal X papi id sig w))) = pastEvents (cl w).
Proof.
  unfold Signal. rewrite locked_call_run.
  destruct (containers (cl w) !! id); cbn;
    repeat split; apply insert_insert_eq.
Qed.

(** X19: Resize behaves like Signal, with one UpdateProcess RPC for the
    named process that carries the width and the height truncated to
    32 bits. *)
Theorem Resize_outcome id processID width height w :
  match containers (cl w) !! id with
  | None =>
      fst (Resize papi id processID width height w)
        = Some ("invalid container: " +:+ id)
      /\ steps (snd (Resize papi id processID width height w))
         = steps w ++ [Act (ALock id); Act (AUnlock id)]
  | Some _ =>
      steps (snd (Resize papi id processID width height w))
      = steps w ++
        [Act (ALock id);
         Rpc (RUpdateProcess id processID (uint32 width) (uint32 height)
                (fst (Resize papi id processID width height w)));
         Act (AUnlock id)]
  end
  /\ containerMutexes (cl (snd (Resize papi id processID width height w)))
     = <[id := false]> (containerMutexes (cl w))
  /\ containers (cl (snd (Resize papi id processID width height w)))
     = containers (cl w)
  /\ pastEvents (cl (snd (Resize papi id processID width height w)))
     = pastEvents (cl w).
Proof.
  unfold Resize. rewrite locked_call_run.
  destruct (containers (cl w) !! id); cbn;
    repeat split; apply insert_insert_eq.
Qed.

(** X20: the signal number that Signal sends for a registered container
    always lies in the uint32 range: it is the given number reduced modulo
    2^32, hence the given number itself whenever that fits a uint32. *)
Theorem Signal_signal_number id sig w ct :
  containers (cl w) !! id = Some ct ->
  exists n reply,
    steps (snd (Signal X papi id sig w))
    = steps w ++ [Act (ALock id);
                  Rpc (RSignal id (initProcessID X) n reply);
                  Act (AUnlock id)]
    /\ 0 <= n < 2 ^ 32
    /\ (n - sig) mod 2 ^ 32 = 0
    /\ (0 <= sig < 2 ^ 32 -> n = sig).
Proof.
  intros Hreg. unfold Signal. rewrite locked_call_run, Hreg. cbn.
  exists (uint32 sig). eexists. split; [reflexivity|].
  unfold uint32. split; [apply Z.mod_pos_bound; lia|]. split.
  - rewrite Zminus_mod_idemp_l, Z.sub_diag. reflexivity.
  - intros Hsmall. apply Z.mod_small. exact Hsmall.
Qed.

(** X21: Stats neither locks nor looks at the registry: it sends one
    Stats RPC whether or not the ID is registered, returns the daemon's
    answer or error as it is, and leaves the client untouched. *)
Theorem Stats_outcome id w :
  fst (Stats papi id w) = api_Stats papi (steps w) id
  /\ snd (Stats papi id w)
     = {| cl := cl w;
          steps := steps w ++ [Rpc (RStats id (api_Stats papi (steps w) id))]
       |}.
Proof.
  unfold Stats, bindW, callW, retW.
  destruct (api_Stats papi (steps w) id); split; reflexivity.
Qed.

End ProcessProperties.

(** * Further scenarios, run *)

Lemma unlock_unknown_id_witness :
  containerMutexes client_empty !! "c9" = None
  /\ trace (state_after (unlock "c9") client_empty)
     = [ALog (WarnUnlockMissing "c9")]
  /\ containerMutexes (state_after (unlock "c9") client_empty) = ∅.
Proof.
  split; [reflexivity|].
  rewrite (unlock_unknown_id "c9" client_empty eq_refl).
  split; reflexivity.
Defined.

Lemma setState_unregistered_witness :
  containers client_empty !! "c1" = None
  /\ value_of (setState sample_extern env_ok "c1" "pause") client_empty
     = Some "invalid container: c1"
  /\ trace (state_after (setState sample_extern env_ok "c1" "pause")
                        client_empty)
     = [ALock "c1"; AUnlock "c1"].
Proof.
  split; [reflexivity|].
  destruct (setState_unregistered sample_extern env_ok "c1" "pause"
              client_empty eq_refl) as (Hv & Ht & _).
  split; [exact Hv | exact Ht].
Defined.

Lemma restore_without_backlog_witness :
  value_of (restore sample_extern env_ok daemon_c1 []) client_empty = None
  /\ pastEvents client_empty !! containerd.Id daemon_c1 = None
  /\ containers (state_after (restore sample_extern env_ok daemon_c1 [])
                             client_empty)
     = <[ "c1" := container_c1 42 ]> ∅.
Proof.
  split; [vm_compute; reflexivity|]. split; [reflexivity|].
  destruct (restore_without_backlog sample_extern env_ok daemon_c1 []
              client_empty ltac:(vm_compute; reflexivity) eq_refl)
    as [Hc _].
  exact Hc.
Defined.

Lemma restore_twice_witness :
  value_of (restore sample_extern env_ok daemon_c1 []) client_empty = None
  /\ p_id (proc (restored_container sample_extern daemon_c1 [])) = "c1"
  /\ value_of (restore sample_extern env_ok daemon_c1 [])
              (state_after (restore sample_extern env_ok daemon_c1 [])
                           client_empty)
     = Some "container c1 is aleady active".
Proof.
  split; [vm_compute; reflexivity|]. split; [vm_compute; reflexivity|].
  destruct (restore_twice sample_extern env_ok daemon_c1 [] [] client_empty
              ltac:(vm_compute; reflexivity) ltac:(vm_compute; reflexivity))
    as [Hv _].
  exact Hv.
Defined.

Lemma restore_then_Pause_without_process_witness :
  value_of (restore sample_extern env_ok daemon_idle []) client_empty = None
  /\ p_id (proc (restored_container sample_extern daemon_idle [])) = "c3"
  /\ systemPid sample_extern daemon_idle = 0
  /\ value_of (Pause sample_extern env_ok "c3")
              (state_after (restore sample_extern env_ok daemon_idle [])
                           client_empty)
     = Some "No active process for container c3".
Proof.
  split; [vm_compute; reflexivity|]. split; [vm_compute; reflexivity|].
  split; [reflexivity|].
  destruct (restore_then_Pause_without_process sample_extern env_ok
              daemon_idle [] client_empty
              ltac:(vm_compute; reflexivity) ltac:(vm_compute; reflexivity)
              eq_refl) as [Hv _].
  exact Hv.
Defined.

Lemma restore_returns_first_failure_witness :
  containers client_empty !! containerd.Id daemon_c1 = None
  /\ value_of (restore sample_extern env_backend_down daemon_c1 [])
              client_empty = Some "backend down"
  /\ exists l failing,
       trace (state_after (restore sample_extern env_backend_down
                                   daemon_c1 []) client_empty)
       = trace client_empty ++ l
       /\ ends_with [failing; ADeregister "c1"; AUnlock "c1"] l
       /\ failed_with "backend down" failing = true.
Proof.
  split; [reflexivity|]. split; [vm_compute; reflexivity|].
  exact (restore_returns_first_failure sample_extern env_backend_down
           daemon_c1 [] client_empty "backend down" eq_refl
           ltac:(vm_compute; reflexivity)).
Defined.

Lemma Restore_reports_exit_code_once_witness :
  value_of (getContainerdContainer env_no_record "c2") client_backlog_exit
    = Err "invalid state response"
  /\ value_of (getContainerdContainer env_no_record "c2")
       (state_after (Restore sample_extern env_no_record "c2" [])
                    client_backlog_exit)
     = Err "invalid state response"
  /\ backlog_exit_code client_backlog_exit "c2" = 7
  /\ exists reply1 reply2 rpc1 rpc2,
       trace (state_after (Restore sample_extern env_no_record "c2" [])
                (state_after (Restore sample_extern env_no_record "c2" [])
                             client_backlog_exit))
       = trace client_backlog_exit ++
         [rpc1; ALock "c2";
          AStateChanged "c2"
            {| State := "exit"; Pid := 0;
               ExitCode := backlog_exit_code client_backlog_exit "c2" |}
            reply1;
          AUnlock "c2";
          rpc2; ALock "c2";
          AStateChanged "c2" {| State := "exit"; Pid := 0; ExitCode := 0 |}
                        reply2;
          AUnlock "c2"].
Proof.
  split; [vm_compute; reflexivity|]. split; [vm_compute; reflexivity|].
  split; [vm_compute; reflexivity|].
  exact (Restore_reports_exit_code_once sample_extern env_no_record "c2"
           [] [] client_backlog_exit _ _
           ltac:(vm_compute; reflexivity) ltac:(vm_compute; reflexivity)).
Defined.

Lemma GetPidsForContainer_64bit_witness :
  intBits sample_extern = 64
  /\ value_of (getContainerdContainer env_ok "c1") client_empty
     = Ok daemon_c1
  /\ Forall (fun p => 0 <= p < 2 ^ 32) (containerd.Pids daemon_c1)
  /\ value_of (GetPidsForContainer sample_extern env_ok "c1") client_empty
     = Ok [42; 43].
Proof.
  assert (Hrange : Forall (fun p => 0 <= p < 2 ^ 32)
                          (containerd.Pids daemon_c1))
    by (repeat constructor; lia).
  split; [reflexivity|]. split; [vm_compute; reflexivity|].
  split; [exact Hrange|].
  exact (GetPidsForContainer_64bit sample_extern env_ok "c1" client_empty
           daemon_c1 eq_refl ltac:(vm_compute; reflexivity) Hrange).
Defined.

Lemma newContainer_identity_witness :
  (forall o ct, In o [failing_option] -> proc (fst (o ct)) = proc ct)
  /\ proc (value_of (newContainer sample_extern
                       "/var/run/docker/libcontainerd/c1" [failing_option])
                    client_empty)
     = {| p_id := "c1"; p_dir := "/var/run/docker/libcontainerd/c1";
          p_processID := "init" |}.
Proof.
  assert (Hkeep : forall o ct, In o [failing_option] ->
                               proc (fst (o ct)) = proc ct).
  { intros o ct [<-|[]]. reflexivity. }
  split; [exact Hkeep|].
  exact (newContainer_identity sample_extern
           "/var/run/docker/libcontainerd/c1" [failing_option] client_empty
           Hkeep).
Defined.

Lemma Signal_signal_number_witness :
  containers (cl (world_of client_running)) !! "c1" = Some (container_c1 42)
  /\ exists n reply,
       steps (snd (Signal sample_extern papi_ok "c1" (-1)
                          (world_of client_running)))
       = [Act (ALock "c1"); Rpc (RSignal "c1" "init" n reply);
          Act (AUnlock "c1")]
       /\ 0 <= n < 2 ^ 32.
Proof.
  split; [reflexivity|].
  destruct (Signal_signal_number sample_extern papi_ok "c1" (-1)
              (world_of client_running) (container_c1 42) eq_refl)
    as (n & reply & Hs & Hn & _).
  exists n, reply. split; [exact Hs | exact Hn].
Defined.


(** * A failed restore and the key of the registration *)

Section FailureCleanup.

Variable X : Extern.
Variable env : Env.

Lemma options_logs_no_register key options ct :
  ~ In (ARegister key) (options_logs options ct).
Proof.
  revert ct. induction options as [|o rest IH]; intros ct Hin.
  - destruct Hin.
  - cbn [options_logs] in Hin. apply in_app_or in Hin.
    destruct Hin as [Hin|Hin]; [|exact (IH _ Hin)].
    destruct (snd (o ct)); cbn [In] in Hin;
      [destruct Hin as [Hin|[]]; discriminate Hin | destruct Hin].
Qed.

Lemma restore_failure_after_registration cont options c :
  containers c !! containerd.Id cont = None ->
  p_id (proc (restored_container X cont options)) <> containerd.Id cont ->
  wp (restore X env cont options)
     (fun r c' =>
        forall e, r = Some e ->
          exists l,
            trace c' = trace c ++ l
            /\ (In (ARegister
                      (p_id (proc (restored_container X cont options)))) l ->
                containers c'
                  !! p_id (proc (restored_container X cont options))
                = Some (restored_container X cont options))) c.
Proof.
  intros Hfree Hkey.
  unfold restore, restore_body, restored_container in *.
  wp_exec. rewrite Hfree.
  wp_all; intros e' He'; try discriminate He'.
  all: trace_split; cbn [proc with_systemPid] in *.
  all: try (intros _; rewrite lookup_delete_ne by congruence;
            apply lookup_insert_eq).
  all: intros Hin; exfalso.
  all: cbn [In] in Hin; rewrite ?in_app_iff in Hin; cbn [In] in Hin.
  all: repeat match goal with
         | H : _ \/ _ |- _ => destruct H as [H|H]
         end; try discriminate; try contradiction.
  all: eapply options_logs_no_register; eassumption.
Qed.

(** When the container was built under a key other than the ID, a restore
    that fails after the registration leaves the container in the registry
    under that key: the compensating delete removes the key of the ID
    only. *)
Lemma restore_failure_keeps_other_key cont options c e l :
  containers c !! containerd.Id cont = None ->
  p_id (proc (restored_container X cont options)) <> containerd.Id cont ->
  value_of (restore X env cont options) c = Some e ->
  trace (state_after (restore X env cont options) c) = trace c ++ l ->
  In (ARegister (p_id (proc (restored_container X cont options)))) l ->
  containers (state_after (restore X env cont options) c)
    !! p_id (proc (restored_container X cont options))
  = Some (restored_container X cont options).
Proof.
  intros Hfree Hkey He Ht Hin.
  destruct (wp_run _ _ _
              (restore_failure_after_registration cont options c Hfree Hkey)
              e He) as (l' & Ht' & Hkeep).
  rewrite Ht' in Ht. apply app_inv_head in Ht. subst l'.
  exact (Hkeep Hin).
Qed.

End FailureCleanup.

(** C6: the daemon reports "c1" with the bundle directory
    "/bundles/other", nothing is registered, and the Backend rejects the
    Restore notification.  restore returns the Backend's error after its
    compensating delete, and the public Restore returns nil, yet the
    container it built is still in the registry, under "other": it was
    inserted under the base name of the bundle directory and the delete
    removed the key of the ID. *)
Theorem restore_failure_leaves_container_under_other_key :
  containers client_empty !! "c1" = None
  /\ value_of (restore sample_extern env_moved_backend_down daemon_moved [])
              client_empty = Some "backend down"
  /\ In (ADeregister "c1")
        (trace (state_after (restore sample_extern env_moved_backend_down
                                     daemon_moved []) client_empty))
  /\ containers (state_after (restore sample_extern env_moved_backend_down
                                      daemon_moved []) client_empty)
       !! "other"
     = Some (restored_container sample_extern daemon_moved [])
  /\ value_of (Restore sample_extern env_moved_backend_down "c1" [])
              client_empty = None
  /\ containers (state_after (Restore sample_extern env_moved_backend_down
                                      "c1" []) client_empty)
       !! "other"
     = Some (restored_container sample_extern daemon_moved []).
Proof.
  split; [reflexivity|].
  split; [vm_compute; reflexivity|].
  split; [vm_compute; tauto|].
  split; [vm_compute; reflexivity|].
  split; vm_compute; reflexivity.
Qed.
